(** * SmartGov Ex-Gratia chatbot: intent classifier, application-ID
    extractor, status lookup and dialog controller

    A shallow embedding of [smartgov_bot.py] (class [SmartGovBot]) and the
    properties of its rule-based core.

    Modelling conventions.
    - A message is a [string]; the functions work on its character list.
      The alphabet is ASCII: [str.lower] and [str.upper] change the letters
      A-Z / a-z only, and the regular-expression class [\w] is
      [[A-Za-z0-9_]].  Characters with code 128 and above stand for caseless
      symbols outside [\w].  The model is exact for ASCII text; Python's
      case mappings and [\w] treat other characters differently (a letter
      outside ASCII is a word character, and its case mapping can change
      the length of the text), so a property that depends on how such
      characters behave is stated for ASCII text ([ascii_text]).
    - [context.user_data] is a finite map from keys to Python truth values.
    - The transport (Telegram) is modelled by the list of views a handler
      sends; an uncaught Python exception is an explicit handler outcome.
    - The status store is the result of [pd.read_csv]: an exception, a
      table of rows whose [application_id] column was read as text, or a
      table whose [application_id] column was read as numbers (every ID a
      number), on which the [.str] accessor raises. *)

From Stdlib Require Import Ascii String List Bool Arith ZArith Lia.
From stdpp Require Import gmap strings.
Import ListNotations.
Local Open Scope string_scope.
Local Open Scope list_scope.

(** ** Python strings *)

Module PyStr.

Definition text := list ascii.

Definition code (c : ascii) : nat := nat_of_ascii c.

Definition is_upper (c : ascii) : bool := (65 <=? code c)%nat && (code c <=? 90)%nat.
Definition is_lower (c : ascii) : bool := (97 <=? code c)%nat && (code c <=? 122)%nat.
Definition is_digit (c : ascii) : bool := (48 <=? code c)%nat && (code c <=? 57)%nat.

(** [str.isalnum] on one ASCII character. *)
Definition is_alnum (c : ascii) : bool := is_upper c || is_lower c || is_digit c.

(** The regular-expression class [\w] on ASCII characters. *)
Definition is_word (c : ascii) : bool := is_alnum c || Ascii.eqb c "_"%char.

Definition lower_char (c : ascii) : ascii :=
  if is_upper c then ascii_of_nat (code c + 32) else c.

Definition upper_char (c : ascii) : ascii :=
  if is_lower c then ascii_of_nat (code c - 32) else c.

(** [s.lower()] and [s.upper()], as they act on ASCII text. *)
Definition lower (s : text) : text := map lower_char s.
Definition upper (s : text) : text := map upper_char s.

(** [s.startswith(p)]. *)
Fixpoint starts_with (p s : text) : bool :=
  match p, s with
  | [], _ => true
  | _ :: _, [] => false
  | a :: p', b :: s' => Ascii.eqb a b && starts_with p' s'
  end.

(** [p in s]: [p] occurs in [s] as a contiguous substring. *)
Fixpoint contains (p s : text) : bool :=
  starts_with p s ||
  match s with
  | [] => false
  | _ :: s' => contains p s'
  end.

(** [any(w in s for w in words)]. *)
Definition any_in (words : list string) (s : text) : bool :=
  existsb (fun w => contains (list_ascii_of_string w) s) words.

End PyStr.

(** ** Regular expressions of the shape [\b[C]{lo,hi}\b]

    The two patterns of the program, [\b[a-z0-9]{6,12}\b] and
    [\b[A-Z0-9]{6,12}\b], are evaluated the way a backtracking engine does:
    at a start offset test [\b], take as many class characters as possible
    (at most [hi]), then give characters back one at a time (down to [lo])
    until the closing [\b] holds.  Matches are never empty ([lo] is 6). *)

Module Regex.
Import PyStr.

Definition word_opt (o : option ascii) : bool :=
  match o with
  | Some c => is_word c
  | None => false
  end.

(** [\b] between the character before an offset and the one at it. *)
Definition at_boundary (prev next : option ascii) : bool :=
  xorb (word_opt prev) (word_opt next).

Section Pattern.
Variable cls : ascii -> bool.
Variables lo hi : nat.

(** Greedy repetition: the number of leading class characters, at most [n]. *)
Fixpoint greedy (n : nat) (s : text) : nat :=
  match n, s with
  | S n', c :: s' => if cls c then S (greedy n' s') else 0
  | _, _ => 0
  end.

(** The character just before offset [n] of [s], [prev] preceding [s]. *)
Definition char_before (prev : option ascii) (s : text) (n : nat) : option ascii :=
  match n with
  | 0 => prev
  | S k => nth_error s k
  end.

(** Backtracking over the repetition count [n], [n - 1], ..., [lo]. *)
Fixpoint backtrack (prev : option ascii) (s : text) (n : nat) : option nat :=
  if (n <? lo)%nat then None
  else if at_boundary (char_before prev s n) (nth_error s n) then Some n
  else match n with
       | 0 => None
       | S k => backtrack prev s k
       end.

(** A match starting exactly here: its length. *)
Definition match_at (prev : option ascii) (s : text) : option nat :=
  if at_boundary prev (nth_error s 0)
  then backtrack prev s (greedy hi s)
  else None.

(** [re.search(pattern, s)] as a truth value: is there a match at some
    offset, scanning left to right. *)
Fixpoint search_from (prev : option ascii) (s : text) : bool :=
  match match_at prev s with
  | Some _ => true
  | None =>
      match s with
      | [] => false
      | c :: s' => search_from (Some c) s'
      end
  end.

(** [re.findall(pattern, s)]: the matches from left to right, the scan
    resuming at the end of each match.  [skip] counts the characters of
    the last match that are still to be stepped over. *)
Fixpoint findall_from (prev : option ascii) (s : text) (skip : nat) : list text :=
  match skip with
  | S k =>
      match s with
      | [] => []
      | c :: s' => findall_from (Some c) s' k
      end
  | 0 =>
      match match_at prev s with
      | Some n =>
          firstn n s ::
          match s with
          | [] => []
          | c :: s' => findall_from (Some c) s' (n - 1)
          end
      | None =>
          match s with
          | [] => []
          | c :: s' => findall_from (Some c) s' 0
          end
      end
  end.

End Pattern.

Definition search (cls : ascii -> bool) (lo hi : nat) (s : text) : bool :=
  search_from cls lo hi None s.

Definition findall (cls : ascii -> bool) (lo hi : nat) (s : text) : list text :=
  findall_from cls lo hi None s 0.

(** The class [[a-z0-9]]. *)
Definition lower_alnum (c : ascii) : bool := is_lower c || is_digit c.
(** The class [[A-Z0-9]]. *)
Definition upper_alnum (c : ascii) : bool := is_upper c || is_digit c.

End Regex.

(** ** Intent classifier *)

Inductive Intent : Type :=
| greeting
| exgratia_norms
| application_procedure
| status_check
| apply_start
| help
| other.

Definition greeting_words : list string :=
  ["hello"; "hi"; "start"; "hey"; "namaste"; "good morning"; "good afternoon";
   "good evening"].

Definition norms_phrases : list string :=
  ["norms"; "amount"; "money"; "eligibility"; "how much"; "rate"; "compensation";
   "house damage"; "crop loss"; "livestock"; "injury"; "death"; "relief amount";
   "sanction"; "criteria"; "eligible"; "qualify"; "entitle"].

Definition procedure_phrases : list string :=
  ["apply"; "application"; "procedure"; "process"; "how to"; "documents";
   "submit"; "steps"; "gram panchayat"; "ward office"; "requirements";
   "form"; "paperwork"; "where to apply"; "when to apply"].

Definition status_phrases : list string :=
  ["status"; "check"; "track"; "application id"; "app id"; "reference";
   "progress"; "update"; "approved"; "pending"; "rejected"; "sanctioned"].

Definition help_words : list string :=
  ["help"; "support"; "assist"; "guidance"; "information"; "contact"; "phone";
   "number"].

Definition question_words : list string :=
  ["what"; "how"; "when"; "where"; "why"; "which"].

Definition document_words : list string :=
  ["document"; "paper"; "certificate"; "proof"].

Definition money_words : list string :=
  ["money"; "amount"; "rupee"; "compensation"].

(** [re.search(r'\b[a-z0-9]{6,12}\b', message_lower)]. *)
Definition search_app_id (message_lower : PyStr.text) : bool :=
  Regex.search Regex.lower_alnum 6 12 message_lower.

(** [SmartGovBot.fallback_intent_detection]. *)
Definition fallback_intent_detection (message : string) : Intent :=
  let message_lower := PyStr.lower (list_ascii_of_string message) in
  if PyStr.any_in greeting_words message_lower then greeting
  else if PyStr.any_in norms_phrases message_lower then exgratia_norms
  else if PyStr.any_in procedure_phrases message_lower then application_procedure
  else if PyStr.any_in status_phrases message_lower || search_app_id message_lower
       then status_check
  else if PyStr.any_in help_words message_lower then help
  else if PyStr.any_in question_words message_lower then
         if PyStr.any_in document_words message_lower then application_procedure
         else if PyStr.any_in money_words message_lower then exgratia_norms
         else other
  else other.

(** [SmartGovBot.get_intent_from_llm]: the remote call is disabled, the
    rule-based classifier answers. *)
Definition get_intent_from_llm (message : string) : Intent :=
  fallback_intent_detection message.

(** ** Application-ID extractor *)

(** [re.findall(r'\b[A-Z0-9]{6,12}\b', message.upper())], as written in
    [message_handler] and in [handle_intent]. *)
Definition extract_app_ids (message : string) : list string :=
  map string_of_list_ascii
      (Regex.findall Regex.upper_alnum 6 12
                     (PyStr.upper (list_ascii_of_string message))).

(** ** Content store *)

Inductive Exn : Type :=
| AttributeError
| ValueError
| FileNotFoundError
| ParserError
| OSError.

Inductive Result (A : Type) : Type :=
| Ok (a : A)
| Raise (e : Exn).
Arguments Ok {A} a.
Arguments Raise {A} e.

(** What the file system holds at a path. *)
Inductive FileState : Type :=
| Missing
| Readable (content : string)
| Unreadable (e : Exn).

(** [os.path.exists(file_path)]. *)
Definition path_exists (f : FileState) : bool :=
  match f with
  | Missing => false
  | Readable _ | Unreadable _ => true
  end.

(** [open(file_path, 'r', encoding='utf-8')] followed by [file.read()]. *)
Definition open_read (f : FileState) : Result string :=
  match f with
  | Missing => Raise FileNotFoundError
  | Readable content => Ok content
  | Unreadable e => Raise e
  end.

Definition not_available_text : string :=
  "Information not available. Please contact support.".

Definition error_loading_text : string :=
  "Error loading information. Please contact support.".

(** [SmartGovBot._load_file_content]. *)
Definition _load_file_content (file_path : FileState) : string :=
  let body :=
    if path_exists file_path then open_read file_path
    else Ok not_available_text in
  match body with
  | Ok content => content
  | Raise _ => error_loading_text
  end.

(** The two texts loaded by [SmartGovBot.__init__]. *)
Record SmartGovBot : Type := {
  exgratia_norms_text : string;
  application_procedure_text : string
}.

Definition init_bot (norms_file procedure_file : FileState) : SmartGovBot :=
  {| exgratia_norms_text := _load_file_content norms_file;
     application_procedure_text := _load_file_content procedure_file |}.

(** ** Status store *)

(** A cell of the [amount] column as [pd.read_csv] delivers it: a number
    when the column parsed as numeric, the raw text otherwise. *)
Inductive AmountCell : Type :=
| ANum (n : Z)
| AStr (s : string).

Record ApplicationRecord : Type := {
  application_id : string;
  applicant_name : string;
  phone : string;
  type : string;
  status : string;
  amount : AmountCell;
  date_applied : string;
  remarks : string
}.

(** The outcome of [pd.read_csv(Config.STATUS_CSV_FILE)]: the call raises;
    or it returns a frame whose [application_id] column has text cells
    (dtype object), given by its rows; or it returns a frame whose
    [application_id] column was inferred as numeric because every ID in the
    file is a number, given by those IDs. *)
Inductive CsvRead : Type :=
| CsvRaises (e : Exn)
| DataFrame (rows : list ApplicationRecord)
| NumericIdFrame (ids : list Z).

(** [pd.read_csv(..)] followed by [df['application_id'].str]: the rows of
    a frame with text IDs; the [.str] accessor raises [AttributeError] on a
    numeric column. *)
Definition text_id_rows (csv : CsvRead) : Result (list ApplicationRecord) :=
  match csv with
  | CsvRaises e => Raise e
  | DataFrame rows => Ok rows
  | NumericIdFrame _ => Raise AttributeError
  end.

Inductive StatusLookupResult : Type :=
| Found (row : ApplicationRecord)
| NotFound.

Definition str_upper (s : string) : string :=
  string_of_list_ascii (PyStr.upper (list_ascii_of_string s)).

(** [df[df['application_id'].str.upper() == app_id.upper()]] on the rows of
    a frame with text IDs. *)
Definition select_rows (df : list ApplicationRecord) (app_id : string)
  : list ApplicationRecord :=
  List.filter (fun row => String.eqb (str_upper (application_id row)) (str_upper app_id)) df.

(** [if not result.empty: row = result.iloc[0]]. *)
Definition lookup (df : list ApplicationRecord) (app_id : string) : StatusLookupResult :=
  match select_rows df app_id with
  | row :: _ => Found row
  | [] => NotFound
  end.

Inductive Emoji : Type :=
| CheckMark | Arrows | Hourglass | CrossMark | Clipboard.

(** [{'Approved': .., 'Under Review': .., 'Pending': .., 'Rejected': ..}.get(status, default)]. *)
Definition status_emoji (st : string) : Emoji :=
  if String.eqb st "Approved" then CheckMark
  else if String.eqb st "Under Review" then Arrows
  else if String.eqb st "Pending" then Hourglass
  else if String.eqb st "Rejected" then CrossMark
  else Clipboard.

(** The format specification [{row['amount']:,}]: a number is printed with
    thousands separators, a string raises [ValueError]. *)
Definition format_amount (a : AmountCell) : Result Z :=
  match a with
  | ANum n => Ok n
  | AStr _ => Raise ValueError
  end.

(** ** Views and transport *)

Inductive View : Type :=
| WelcomeView
| HelpView
| FallbackView
| NormsView (text : string)
| ProcedureView (text : string)
| StatusPromptView
| StatusFoundView (emoji : Emoji) (row : ApplicationRecord) (amount_shown : Z)
| StatusNotFoundView (app_id : string)
| StatusErrorView.

Inductive Sent : Type :=
| answer_query
| reply_text (v : View)
| edit_message_text (v : View).

(** A Telegram update: a text message has [message] and no
    [callback_query]; a button press has [callback_query] and no [message]. *)
Record Update : Type := {
  message : option string;
  callback_query : option string
}.

Definition text_update (text : string) : Update :=
  {| message := Some text; callback_query := None |}.

Definition button_update (data : string) : Update :=
  {| message := None; callback_query := Some data |}.

(** Per-conversation state: [context.user_data] and the views sent so far. *)
Record Conversation : Type := {
  user_data : gmap string bool;
  outbox : list Sent
}.

Definition waiting_key : string := "waiting_for_app_id".

(** [context.user_data.get('waiting_for_app_id')] as a truth value. *)
Definition waiting_for_app_id (c : Conversation) : bool :=
  match user_data c !! waiting_key with
  | Some b => b
  | None => false
  end.

(** ** Handler monad: state passing with Python exceptions *)

Definition Handler (A : Type) : Type := Conversation -> Result A * Conversation.

Definition ret {A} (a : A) : Handler A := fun c => (Ok a, c).

Definition raise {A} (e : Exn) : Handler A := fun c => (Raise e, c).

Definition bind {A B} (m : Handler A) (k : A -> Handler B) : Handler B :=
  fun c =>
    match m c with
    | (Ok a, c') => k a c'
    | (Raise e, c') => (Raise e, c')
    end.

(** [try: body except Exception as e: handler]. *)
Definition try_except {A} (body : Handler A) (handler : Exn -> Handler A) : Handler A :=
  fun c =>
    match body c with
    | (Ok a, c') => (Ok a, c')
    | (Raise e, c') => handler e c'
    end.

Declare Scope handler_scope.
Delimit Scope handler_scope with handler.
Notation "x <- m ;; k" := (bind m (fun x => k))
  (at level 100, m at next level, right associativity) : handler_scope.
Notation "m ;; k" := (bind m (fun _ => k))
  (at level 100, right associativity) : handler_scope.
Local Open Scope handler_scope.

Definition send (s : Sent) : Handler unit :=
  fun c => (Ok tt, {| user_data := user_data c; outbox := outbox c ++ [s] |}).

Definition lift {A} (r : Result A) : Handler A :=
  fun c => (r, c).

(** [update.message.reply_text(..)]: [update.message] is [None] on a
    button press. *)
Definition message_reply_text (update : Update) (v : View) : Handler unit :=
  match message update with
  | Some _ => send (reply_text v)
  | None => raise AttributeError
  end.

(** [if update.callback_query: edit_message_text(..) else: reply_text(..)]. *)
Definition edit_or_reply (update : Update) (v : View) : Handler unit :=
  match callback_query update with
  | Some _ => send (edit_message_text v)
  | None => message_reply_text update v
  end.

(** [context.user_data['waiting_for_app_id'] = True]. *)
Definition set_waiting : Handler unit :=
  fun c => (Ok tt, {| user_data := <[waiting_key := true]> (user_data c);
                      outbox := outbox c |}).

(** [context.user_data.pop('waiting_for_app_id', None)]. *)
Definition pop_waiting : Handler unit :=
  fun c => (Ok tt, {| user_data := delete waiting_key (user_data c);
                      outbox := outbox c |}).

(** ** Dialog controller *)

Section Handlers.

Variable self : SmartGovBot.
(** What [pd.read_csv(Config.STATUS_CSV_FILE)] yields. *)
Variable status_csv : CsvRead.

(** [SmartGovBot.start_command]. *)
Definition start_command (update : Update) : Handler unit :=
  message_reply_text update WelcomeView.

(** [SmartGovBot.help_command]. *)
Definition help_command (update : Update) : Handler unit :=
  message_reply_text update HelpView.

(** [SmartGovBot.handle_other_intent]. *)
Definition handle_other_intent (update : Update) : Handler unit :=
  message_reply_text update FallbackView.

(** [SmartGovBot.show_exgratia_norms]. *)
Definition show_exgratia_norms (update : Update) : Handler unit :=
  edit_or_reply update (NormsView (exgratia_norms_text self)).

(** [SmartGovBot.show_application_procedure]. *)
Definition show_application_procedure (update : Update) : Handler unit :=
  edit_or_reply update (ProcedureView (application_procedure_text self)).

(** [SmartGovBot.ask_for_application_id]. *)
Definition ask_for_application_id (update : Update) : Handler unit :=
  edit_or_reply update StatusPromptView ;;
  set_waiting.

(** The body of the [try] block of [check_application_status]. *)
Definition check_application_status_body (update : Update) (app_id : string)
  : Handler unit :=
  df <- lift (text_id_rows status_csv) ;;
  response <- lift (match lookup df app_id with
                    | Found row =>
                        match format_amount (amount row) with
                        | Ok shown =>
                            Ok (StatusFoundView (status_emoji (status row)) row shown)
                        | Raise e => Raise e
                        end
                    | NotFound => Ok (StatusNotFoundView app_id)
                    end) ;;
  message_reply_text update response.

(** [SmartGovBot.check_application_status]. *)
Definition check_application_status (update : Update) (app_id : string)
  : Handler unit :=
  try_except (check_application_status_body update app_id)
             (fun _ => message_reply_text update StatusErrorView) ;;
  pop_waiting.

(** [SmartGovBot.handle_intent]. *)
Definition handle_intent (update : Update) (intent : Intent) (message : string)
  : Handler unit :=
  match intent with
  | greeting => start_command update
  | exgratia_norms => show_exgratia_norms update
  | application_procedure | apply_start => show_application_procedure update
  | status_check =>
      match extract_app_ids message with
      | app_id :: _ => check_application_status update app_id
      | [] => ask_for_application_id update
      end
  | help => help_command update
  | other => handle_other_intent update
  end.

(** [SmartGovBot.message_handler]. *)
Definition message_handler (update : Update) : Handler unit :=
  match message update with
  | None => raise AttributeError
  | Some message =>
      fun c =>
        let by_intent :=
          handle_intent update (get_intent_from_llm message) message in
        if waiting_for_app_id c then
          match extract_app_ids message with
          | app_id :: _ => check_application_status update app_id c
          | [] => by_intent c
          end
        else by_intent c
  end.

(** [SmartGovBot.button_handler]. *)
Definition button_handler (update : Update) : Handler unit :=
  match callback_query update with
  | None => raise AttributeError
  | Some data =>
      send answer_query ;;
      if String.eqb data "option_1" then show_exgratia_norms update
      else if String.eqb data "option_2" then show_application_procedure update
      else if String.eqb data "option_3" then ask_for_application_id update
      else if String.eqb data "help" then help_command update
      else if String.eqb data "back_to_menu" then start_command update
      else ret tt
  end.

End Handlers.

(** The initial state of a conversation. *)
Definition idle : Conversation := {| user_data := ∅; outbox := [] |}.

(** The state a handler leaves behind, and how it returns. *)
Definition exec {A} (h : Handler A) (c : Conversation) : Conversation := snd (h c).
Definition outcome {A} (h : Handler A) (c : Conversation) : Result A := fst (h c).

(** ** Event routing

    [main] registers [start_command] for /start, [help_command] for /help,
    [button_handler] for button presses and [message_handler] for text
    that is not a command. *)

Inductive Event : Type :=
| StartCommand
| HelpCommand
| ButtonPress (data : string)
| TextMessage (text : string).

Definition update_of (e : Event) : Update :=
  match e with
  | StartCommand => text_update "/start"
  | HelpCommand => text_update "/help"
  | ButtonPress data => button_update data
  | TextMessage text => text_update text
  end.

Definition handle_event (self : SmartGovBot) (csv : CsvRead) (e : Event)
  : Handler unit :=
  match e with
  | StartCommand => start_command (update_of e)
  | HelpCommand => help_command (update_of e)
  | ButtonPress _ => button_handler self (update_of e)
  | TextMessage _ => message_handler self csv (update_of e)
  end.

(** The events of a conversation handled one after the other; a handler
    that raises leaves the state as it was at the raise, and the next event
    is handled from there. *)
Fixpoint run (self : SmartGovBot) (csv : CsvRead) (events : list Event)
         (c : Conversation) : Conversation :=
  match events with
  | [] => c
  | e :: rest => run self csv rest (exec (handle_event self csv e) c)
  end.

(** ** Notions used to state the properties *)

Module Tokens.
Import PyStr.

Definition push (w : text) (ws : list text) : list text :=
  match w with
  | [] => ws
  | _ :: _ => w :: ws
  end.

(** The run of [p]-characters at the head of [s], and the later runs. *)
Fixpoint split_runs (p : ascii -> bool) (s : text) : text * list text :=
  match s with
  | [] => ([], [])
  | c :: s' =>
      let (w, ws) := split_runs p s' in
      if p c then (c :: w, ws) else ([], push w ws)
  end.

(** The maximal runs of [p]-characters of [s], from left to right. *)
Definition runs (p : ascii -> bool) (s : text) : list text :=
  let (w, ws) := split_runs p s in push w ws.

(** The length of the run of [p]-characters at the head of [s]. *)
Fixpoint lead (p : ascii -> bool) (s : text) : nat :=
  match s with
  | c :: s' => if p c then S (lead p s') else 0
  | [] => 0
  end.

Definition len_between (lo hi : nat) (w : text) : bool :=
  (lo <=? length w)%nat && (length w <=? hi)%nat.

(** A run made of class characters only, [lo] to [hi] of them. *)
Definition shaped (cls : ascii -> bool) (lo hi : nat) (w : text) : bool :=
  forallb cls w && len_between lo hi w.

End Tokens.

(** The extractor as the specification words it: the maximal alphanumeric
    runs of the upper-cased text that have 6 to 12 characters. *)
Definition spec_extract_app_ids (message : string) : list string :=
  map string_of_list_ascii
      (List.filter (Tokens.len_between 6 12)
                   (Tokens.runs PyStr.is_alnum (PyStr.upper (list_ascii_of_string message)))).

(** The text holds an alphanumeric token of 6 to 12 characters between
    non-alphanumeric neighbours. *)
Definition has_alnum_token (message : string) : bool :=
  existsb (Tokens.len_between 6 12)
          (Tokens.runs PyStr.is_alnum (list_ascii_of_string message)).

(** The lower-cased text holds a word (maximal run of [\w] characters) made
    of 6 to 12 characters of [[a-z0-9]]. *)
Definition has_id_word (message : string) : bool :=
  existsb (Tokens.shaped Regex.lower_alnum 6 12)
          (Tokens.runs PyStr.is_word (PyStr.lower (list_ascii_of_string message))).

(** The classifier's rule groups as an ordered table of (intent, test). *)
Definition rule_groups : list (Intent * (PyStr.text -> bool)) :=
  [ (greeting, PyStr.any_in greeting_words);
    (exgratia_norms, PyStr.any_in norms_phrases);
    (application_procedure, PyStr.any_in procedure_phrases);
    (status_check, fun m => PyStr.any_in status_phrases m || search_app_id m);
    (help, PyStr.any_in help_words);
    (application_procedure,
      fun m => PyStr.any_in question_words m && PyStr.any_in document_words m);
    (exgratia_norms,
      fun m => PyStr.any_in question_words m && PyStr.any_in money_words m) ].

(** The intent of the first group of the table whose test holds. *)
Fixpoint first_match (groups : list (Intent * (PyStr.text -> bool)))
         (m : PyStr.text) : Intent :=
  match groups with
  | [] => other
  | (intent, test) :: rest => if test m then intent else first_match rest m
  end.

(** The lower-cased text the classifier works on. *)
Definition message_lower (message : string) : PyStr.text :=
  PyStr.lower (list_ascii_of_string message).

(** The view that answers a status check: the record found, its absence,
    or the try-again text when an exception was caught. *)
Definition status_view (csv : CsvRead) (app_id : string) : View :=
  match csv with
  | CsvRaises _ => StatusErrorView
  | DataFrame df =>
      match lookup df app_id with
      | Found row =>
          match amount row with
          | ANum n => StatusFoundView (status_emoji (status row)) row n
          | AStr _ => StatusErrorView
          end
      | NotFound => StatusNotFoundView app_id
      end
  | NumericIdFrame _ => StatusErrorView
  end.

(** A status check meets an exception: reading the store raises; the
    [application_id] column is numeric; or the first row whose ID equals
    the query up to letter case has an amount that is not a number. *)
Inductive store_failure : CsvRead -> string -> Prop :=
| read_raises (e : Exn) (app_id : string) :
    store_failure (CsvRaises e) app_id
| ids_not_text (ids : list Z) (app_id : string) :
    store_failure (NumericIdFrame ids) app_id
| amount_not_numeric (pre post : list ApplicationRecord) (row : ApplicationRecord)
                     (app_id s : string) :
    (forall r, In r pre -> str_upper (application_id r) <> str_upper app_id) ->
    str_upper (application_id row) = str_upper app_id ->
    amount row = AStr s ->
    store_failure (DataFrame (pre ++ row :: post)) app_id.

(** A store whose only record has a text in its amount field. *)
Definition text_amount_record : ApplicationRecord :=
  {| application_id := "23LDM786"; applicant_name := "Pema Sherpa";
     phone := "9800000000"; type := "House Damage"; status := "Pending";
     amount := AStr "to be assessed"; date_applied := "2023-10-15";
     remarks := "" |}.

(** ASCII characters and ASCII text. *)
Definition is_ascii (c : ascii) : bool := (PyStr.code c <? 128)%nat.

Definition ascii_chars (s : PyStr.text) : bool := forallb is_ascii s.

Definition ascii_text (m : string) : bool := ascii_chars (list_ascii_of_string m).

(** A store with the record of the lookup example. *)
Definition example_record : ApplicationRecord :=
  {| application_id := "23LDM786"; applicant_name := "Pema Sherpa";
     phone := "9800000000"; type := "House Damage"; status := "Approved";
     amount := ANum 50000; date_applied := "2023-10-15"; remarks := "Sanctioned" |}.

(** Letters and digits only, 6 to 12 of them. *)
Definition id_like (w : PyStr.text) : bool :=
  forallb PyStr.is_alnum w && Tokens.len_between 6 12 w.

Definition str_lower (s : string) : string :=
  string_of_list_ascii (PyStr.lower (list_ascii_of_string s)).

(** The awaiting flag after an event, from the flag before it. *)
Definition next_waiting (e : Event) (waiting : bool) : bool :=
  match e with
  | StartCommand | HelpCommand => waiting
  | ButtonPress data => String.eqb data "option_3" || waiting
  | TextMessage text =>
      match extract_app_ids text with
      | _ :: _ => false
      | [] =>
          match fallback_intent_detection text with
          | status_check => true
          | _ => waiting
          end
      end
  end.

(** What a handler does to the conversation on a text update. *)
Inductive text_step (c : Conversation) : Result unit * Conversation -> Prop :=
| step_keep (v : View) :
    text_step c (Ok tt, {| user_data := user_data c;
                           outbox := outbox c ++ [reply_text v] |})
| step_set (v : View) :
    text_step c (Ok tt, {| user_data := <[waiting_key := true]> (user_data c);
                           outbox := outbox c ++ [reply_text v] |})
| step_clear (v : View) :
    text_step c (Ok tt, {| user_data := delete waiting_key (user_data c);
                           outbox := outbox c ++ [reply_text v] |}).

(** * Properties *)

(** ** Characters *)

Module CharFacts.
Import PyStr.

Ltac by_cases c :=
  destruct c as [[] [] [] [] [] [] [] []]; vm_compute; try reflexivity; try discriminate;
  auto.

Lemma upper_char_word (c : ascii) : is_word (upper_char c) = is_word c.
Proof. by_cases c. Qed.

Lemma lower_char_word (c : ascii) : is_word (lower_char c) = is_word c.
Proof. by_cases c. Qed.

Lemma upper_char_alnum (c : ascii) : is_alnum (upper_char c) = is_alnum c.
Proof. by_cases c. Qed.

Lemma upper_alnum_upper (c : ascii) :
  Regex.upper_alnum (upper_char c) = is_alnum c.
Proof. by_cases c. Qed.

Lemma upper_alnum_word (c : ascii) : Regex.upper_alnum c = true -> is_word c = true.
Proof. by_cases c. Qed.

Lemma lower_alnum_word (c : ascii) : Regex.lower_alnum c = true -> is_word c = true.
Proof. by_cases c. Qed.

Lemma word_alnum_or_underscore (c : ascii) :
  is_word c = is_alnum c || Ascii.eqb c "_"%char.
Proof. reflexivity. Qed.

End CharFacts.

(** ** Runs of characters *)

Module TokenFacts.
Import PyStr Tokens.

Lemma runs_nil (p : ascii -> bool) : runs p [] = [].
Proof. reflexivity. Qed.

Lemma in_firstn_in {A} (n : nat) (l : list A) (x : A) : In x (firstn n l) -> In x l.
Proof. intros H. rewrite <- (firstn_skipn n l). apply in_or_app. left. exact H. Qed.

Lemma in_skipn_in {A} (n : nat) (l : list A) (x : A) : In x (skipn n l) -> In x l.
Proof. intros H. rewrite <- (firstn_skipn n l). apply in_or_app. right. exact H. Qed.

Lemma lead_le (p : ascii -> bool) (s : text) : lead p s <= length s.
Proof. induction s as [|c s IH]; simpl; [lia|]. destruct (p c); simpl; lia. Qed.

Lemma lead_firstn (p : ascii -> bool) (s : text) :
  forallb p (firstn (lead p s) s) = true.
Proof.
  induction s as [|c s IH]; simpl; [reflexivity|].
  destruct (p c) eqn:E; simpl; [rewrite E; exact IH | reflexivity].
Qed.

(** The character at the end of the leading run is not in [p]. *)
Lemma lead_stop (p : ascii -> bool) (s : text) :
  match nth_error s (lead p s) with
  | Some c => p c = false
  | None => True
  end.
Proof.
  induction s as [|c s IH]; simpl; [exact I|].
  destruct (p c) eqn:E; simpl; [exact IH | exact E].
Qed.

Lemma lead_inside (p : ascii -> bool) (s : text) (k : nat) :
  k < lead p s -> exists c, nth_error s k = Some c /\ p c = true.
Proof.
  revert k; induction s as [|c s IH]; simpl; intros k Hk; [lia|].
  destruct (p c) eqn:E; [|lia].
  destruct k as [|k]; simpl; [eauto|]. apply IH; lia.
Qed.

(** The leading run, then the rest. *)
Lemma split_runs_lead (p : ascii -> bool) (s : text) :
  split_runs p s =
  (firstn (lead p s) s, snd (split_runs p (skipn (lead p s) s))) /\
  fst (split_runs p (skipn (lead p s) s)) = [].
Proof.
  induction s as [|c s [IH1 IH2]]; simpl; [split; reflexivity|].
  destruct (p c) eqn:E; simpl.
  - rewrite IH1. split; [reflexivity | exact IH2].
  - rewrite E. destruct (split_runs p s); split; reflexivity.
Qed.

Lemma runs_skip (p : ascii -> bool) (c : ascii) (s : text) :
  p c = false -> runs p (c :: s) = runs p s.
Proof.
  intros E. unfold runs; simpl. rewrite E. destruct (split_runs p s); reflexivity.
Qed.

(** A text that starts with a [p]-character: its first run, then the runs
    of what follows that run. *)
Lemma runs_lead (p : ascii -> bool) (s : text) :
  0 < lead p s ->
  runs p s = firstn (lead p s) s :: runs p (skipn (lead p s) s).
Proof.
  intros Hpos. unfold runs.
  destruct (split_runs_lead p s) as [H1 H2]. rewrite H1.
  destruct (split_runs p (skipn (lead p s) s)) as [w ws]; simpl in *; subst w.
  destruct (firstn (lead p s) s) eqn:F; [|reflexivity].
  apply (f_equal (@length ascii)) in F. rewrite length_firstn in F.
  pose proof (lead_le p s). simpl in F. lia.
Qed.

Lemma runs_drop_lead (p : ascii -> bool) (s : text) :
  lead p (skipn (lead p s) s) = 0.
Proof.
  induction s as [|c s IH]; simpl; [reflexivity|].
  destruct (p c) eqn:E; simpl; [exact IH | rewrite E; reflexivity].
Qed.

(** One token between separators. *)
Lemma runs_single (p : ascii -> bool) (pre tok post : text) :
  forallb (fun c => negb (p c)) pre = true ->
  forallb p tok = true ->
  tok <> [] ->
  forallb (fun c => negb (p c)) post = true ->
  runs p (pre ++ tok ++ post) = [tok].
Proof.
  intros Hpre Htok Hne Hpost.
  assert (Hpost' : forall q, forallb (fun c => negb (p c)) q = true -> runs p q = []).
  { induction q as [|c q IH]; simpl; intros H; [reflexivity|].
    apply andb_true_iff in H as [Hc Hq]. apply negb_true_iff in Hc.
    rewrite runs_skip by exact Hc. auto. }
  induction pre as [|c pre IH]; simpl in *.
  - assert (L : lead p (tok ++ post) = length tok).
    { clear Hne. induction tok as [|t tok IHt]; simpl in *.
      - destruct post as [|c post]; simpl in *; [reflexivity|].
        apply andb_true_iff in Hpost as [Hc _]. apply negb_true_iff in Hc.
        rewrite Hc. reflexivity.
      - apply andb_true_iff in Htok as [Ht Htok]. rewrite Ht, IHt by exact Htok.
        reflexivity. }
    rewrite runs_lead; rewrite L.
    + rewrite firstn_app, Nat.sub_diag, firstn_all, skipn_app, Nat.sub_diag, skipn_all.
      simpl. rewrite app_nil_r, Hpost' by exact Hpost. reflexivity.
    + destruct tok; [congruence | simpl; lia].
  - apply andb_true_iff in Hpre as [Hc Hpre]. apply negb_true_iff in Hc.
    rewrite runs_skip by exact Hc. auto.
Qed.

(** Every run is made of [p]-characters of the text. *)
Lemma runs_chars (p : ascii -> bool) (s : text) :
  forall w, In w (runs p s) -> forall c, In c w -> p c = true /\ In c s.
Proof.
  remember (length s) as n eqn:Hn. revert s Hn.
  induction n as [n IH] using lt_wf_ind. intros s Hn w Hw c Hc.
  destruct s as [|a s]; [contradiction|].
  destruct (p a) eqn:E.
  - assert (Hpos : 0 < lead p (a :: s)) by (simpl; rewrite E; lia).
    rewrite runs_lead in Hw by exact Hpos. destruct Hw as [<- | Hw].
    + split.
      * pose proof (lead_firstn p (a :: s)) as F.
        rewrite forallb_forall in F. auto.
      * eapply in_firstn_in; eauto.
    + assert (Hlt : length (skipn (lead p (a :: s)) (a :: s)) < n).
      { rewrite length_skipn. subst n. simpl in *. lia. }
      destruct (IH _ Hlt _ eq_refl w Hw c Hc) as [H1 H2]. split; [exact H1|].
      eapply in_skipn_in; eauto.
  - rewrite runs_skip in Hw by exact E.
    assert (Hlt : length s < n) by (subst n; simpl; lia).
    destruct (IH _ Hlt _ eq_refl w Hw c Hc) as [H1 H2]. split; [exact H1 | right; exact H2].
Qed.

(** Two tests that agree on the characters of the text cut it alike. *)
Lemma runs_ext (p q : ascii -> bool) (s : text) :
  (forall c, In c s -> p c = q c) -> runs p s = runs q s.
Proof.
  intros H. unfold runs.
  assert (E : split_runs p s = split_runs q s).
  { induction s as [|a s IH]; simpl; [reflexivity|].
    rewrite IH by (intros; apply H; right; assumption).
    rewrite (H a) by (left; reflexivity). reflexivity. }
  rewrite E. reflexivity.
Qed.

End TokenFacts.

(** ** The pattern [\b[C]{lo,hi}\b] finds the shaped words *)

Module RegexFacts.
Import PyStr Tokens TokenFacts Regex.

Section Pattern.
Variable cls : ascii -> bool.
Variables lo hi : nat.
Hypothesis cls_word : forall c, cls c = true -> is_word c = true.
Hypothesis lo_pos : 1 <= lo.

Lemma greedy_min (n : nat) (s : text) : greedy cls n s = Nat.min n (lead cls s).
Proof.
  revert s; induction n as [|n IH]; intros [|c s]; simpl; try reflexivity.
  destruct (cls c); [rewrite IH|]; reflexivity.
Qed.

Lemma lead_cls_le (s : text) : lead cls s <= lead is_word s.
Proof.
  induction s as [|c s IH]; simpl; [lia|].
  destruct (cls c) eqn:E; [|lia]. rewrite (cls_word _ E). lia.
Qed.

Lemma word_opt_head (s : text) :
  word_opt (nth_error s 0) = (0 <? lead is_word s)%nat.
Proof. destruct s as [|c s]; simpl; [reflexivity|]. destruct (is_word c); reflexivity. Qed.

(** Inside the leading word, only its end is a boundary. *)
Lemma boundary_in_word (prev : option ascii) (s : text) (k : nat) :
  1 <= k <= lead is_word s ->
  at_boundary (char_before prev s k) (nth_error s k) = (k =? lead is_word s)%nat.
Proof.
  intros [H1 H2]. destruct k as [|k]; [lia|]. simpl char_before.
  destruct (lead_inside is_word s k) as (c & -> & Hc); [lia|].
  unfold at_boundary. simpl word_opt at 1. rewrite Hc.
  destruct (Nat.eqb_spec (S k) (lead is_word s)) as [E|E].
  - rewrite E. pose proof (lead_stop is_word s) as L.
    destruct (nth_error s (lead is_word s)); simpl; [rewrite L|]; reflexivity.
  - destruct (lead_inside is_word s (S k)) as (d & -> & Hd); [lia|].
    simpl. rewrite Hd. reflexivity.
Qed.

Lemma backtrack_in_word (prev : option ascii) (s : text) (k : nat) :
  k <= lead is_word s -> 0 < lead is_word s ->
  backtrack lo prev s k =
  if (k =? lead is_word s)%nat && (lo <=? k)%nat then Some k else None.
Proof.
  intros Hk Hpos. induction k as [|k IH].
  - simpl. destruct (Nat.ltb_spec 0 lo); [|lia].
    destruct (lead is_word s); [lia | reflexivity].
  - cbn [backtrack]. destruct (Nat.ltb_spec (S k) lo) as [L|L].
    + destruct (Nat.leb_spec lo (S k)); [lia|]. rewrite andb_false_r. reflexivity.
    + rewrite boundary_in_word by lia.
      destruct (Nat.leb_spec lo (S k)); [|lia]. rewrite andb_true_r.
      destruct (Nat.eqb_spec (S k) (lead is_word s)) as [E|E]; [reflexivity|].
      rewrite IH by lia.
      destruct (Nat.eqb_spec k (lead is_word s)); [lia | reflexivity].
Qed.

(** No match starts in the middle of a word. *)
Lemma match_at_inside (prev : option ascii) (s : text) :
  word_opt prev = true -> 0 < lead is_word s -> match_at cls lo hi prev s = None.
Proof.
  intros Hp Hs. unfold match_at, at_boundary. rewrite Hp, word_opt_head.
  destruct (Nat.ltb_spec 0 (lead is_word s)); [reflexivity | lia].
Qed.

(** No match starts at a character outside [\w], nor at the end. *)
Lemma match_at_outside (prev : option ascii) (s : text) :
  lead is_word s = 0 -> match_at cls lo hi prev s = None.
Proof.
  intros Hs. unfold match_at.
  destruct (at_boundary prev (nth_error s 0)); [|reflexivity].
  rewrite greedy_min. pose proof (lead_cls_le s).
  replace (Nat.min hi (lead cls s)) with 0 by lia.
  simpl. destruct (Nat.ltb_spec 0 lo); [reflexivity | lia].
Qed.

(** At the start of a word the match is the whole word, if shaped. *)
Lemma match_at_start (prev : option ascii) (s : text) :
  word_opt prev = false -> 0 < lead is_word s ->
  match_at cls lo hi prev s =
  if shaped cls lo hi (firstn (lead is_word s) s)
  then Some (lead is_word s) else None.
Proof.
  intros Hp Hs. unfold match_at, at_boundary. rewrite Hp, word_opt_head.
  destruct (Nat.ltb_spec 0 (lead is_word s)); [|lia]. simpl xorb. cbv iota.
  rewrite greedy_min, backtrack_in_word by (pose proof (lead_cls_le s); lia).
  unfold shaped, len_between. rewrite length_firstn.
  pose proof (lead_le is_word s) as Hle. pose proof (lead_cls_le s) as Hc.
  replace (Nat.min (lead is_word s) (length s)) with (lead is_word s) by lia.
  assert (F : forallb cls (firstn (lead is_word s) s) = (lead is_word s <=? lead cls s)%nat).
  { clear. induction s as [|c s IH]; simpl; [reflexivity|].
    destruct (is_word c) eqn:W; simpl.
    - destruct (cls c); simpl; [exact IH | reflexivity].
    - destruct (cls c); reflexivity. }
  rewrite F.
  destruct (Nat.leb_spec (lead is_word s) (lead cls s));
    destruct (Nat.leb_spec (lead is_word s) hi);
    destruct (Nat.eqb_spec (Nat.min hi (lead cls s)) (lead is_word s)); try lia;
    simpl; try reflexivity.
  - rewrite e. destruct (lo <=? lead is_word s)%nat; reflexivity.
  - rewrite andb_false_r. reflexivity.
Qed.

Lemma findall_from_skip (prev : option ascii) (s : text) (k : nat) :
  findall_from cls lo hi prev s k =
  findall_from cls lo hi (char_before prev s k) (skipn k s) 0.
Proof.
  revert prev s; induction k as [|k IH]; intros prev s; [reflexivity|].
  destruct s as [|c s].
  - simpl. rewrite match_at_outside by reflexivity. reflexivity.
  - cbn [findall_from skipn]. rewrite IH. f_equal.
    destruct k; reflexivity.
Qed.

(** The scan, outside a word and inside one. *)
Lemma findall_from_runs (n : nat) :
  forall s prev, length s <= n ->
    findall_from cls lo hi prev s 0 =
    List.filter (shaped cls lo hi)
      (runs is_word (if word_opt prev then skipn (lead is_word s) s else s)).
Proof.
  induction n as [|n IH]; intros s prev Hn.
  - destruct s; [|simpl in Hn; lia]. simpl.
    rewrite match_at_outside by reflexivity. destruct (word_opt prev); reflexivity.
  - destruct s as [|c s].
    { simpl. rewrite match_at_outside by reflexivity.
      destruct (word_opt prev); reflexivity. }
    simpl in Hn. assert (Hs : length s <= n) by lia.
    destruct (is_word c) eqn:W.
    + assert (Hpos : 0 < lead is_word (c :: s)) by (simpl; rewrite W; lia).
      destruct (word_opt prev) eqn:P.
      * cbn [findall_from]. rewrite match_at_inside by assumption.
        rewrite (IH s (Some c) Hs). simpl word_opt. rewrite W.
        simpl lead. rewrite W. reflexivity.
      * cbn [findall_from]. rewrite match_at_start by assumption.
        rewrite (runs_lead is_word (c :: s) Hpos). cbn [List.filter].
        destruct (shaped cls lo hi (firstn (lead is_word (c :: s)) (c :: s))).
        -- f_equal. rewrite findall_from_skip.
           assert (L : lead is_word (c :: s) = S (lead is_word s))
             by (simpl; rewrite W; reflexivity).
           rewrite L. simpl Nat.sub. rewrite Nat.sub_0_r. cbn [skipn].
           rewrite IH by (rewrite length_skipn; lia).
           assert (Q : word_opt (char_before (Some c) s (lead is_word s)) = true).
           { destruct (lead is_word s) as [|k] eqn:K; simpl; [exact W|].
             destruct (lead_inside is_word s k) as (d & -> & Hd); [lia | exact Hd]. }
           rewrite Q, runs_drop_lead. reflexivity.
        -- rewrite (IH s (Some c) Hs). simpl word_opt. rewrite W.
           simpl lead. rewrite W. reflexivity.
    + cbn [findall_from]. rewrite match_at_outside by (simpl; rewrite W; reflexivity).
      rewrite (IH s (Some c) Hs). simpl word_opt. rewrite W.
      simpl lead. rewrite W. cbn [skipn].
      destruct (word_opt prev); rewrite runs_skip by exact W; reflexivity.
Qed.

(** [re.findall] returns the shaped words, in order. *)
Lemma findall_runs (s : text) :
  findall cls lo hi s = List.filter (shaped cls lo hi) (runs is_word s).
Proof. unfold findall. rewrite (findall_from_runs (length s)) by lia. reflexivity. Qed.

Lemma search_from_findall (s : text) (prev : option ascii) :
  search_from cls lo hi prev s =
  match findall_from cls lo hi prev s 0 with [] => false | _ :: _ => true end.
Proof.
  revert prev; induction s as [|c s IH]; intros prev; simpl.
  - destruct (match_at cls lo hi prev []); reflexivity.
  - destruct (match_at cls lo hi prev (c :: s)); [reflexivity | apply IH].
Qed.

(** [re.search] succeeds exactly when some word is shaped. *)
Lemma search_runs (s : text) :
  search cls lo hi s = existsb (shaped cls lo hi) (runs is_word s).
Proof.
  unfold search. rewrite search_from_findall.
  fold (findall cls lo hi s). rewrite findall_runs.
  induction (runs is_word s) as [|w ws IH]; simpl; [reflexivity|].
  destruct (shaped cls lo hi w); [reflexivity | exact IH].
Qed.

End Pattern.

End RegexFacts.

(** ** The model on concrete texts *)

Example extract_resumes_after_each_match :
  extract_app_ids "ABCDEF GHIJKL,MNOPQR1" = ["ABCDEF"; "GHIJKL"; "MNOPQR1"].
Proof. vm_compute. reflexivity. Qed.

Example extract_skips_long_and_short_runs :
  extract_app_ids "abcdefghijklm 12345-678901" = ["678901"].
Proof. vm_compute. reflexivity. Qed.

Example extract_twelve_yes_thirteen_no :
  extract_app_ids "xxxxxxxxxxxx-yyyyyyyyyyyyy.zzzzzz" = ["XXXXXXXXXXXX"; "ZZZZZZ"].
Proof. vm_compute. reflexivity. Qed.

Example extract_underscore_joins_words :
  extract_app_ids "APP_2023_000123" = [].
Proof. vm_compute. reflexivity. Qed.

Example extract_empty_text : extract_app_ids "" = [].
Proof. vm_compute. reflexivity. Qed.

Example search_finds_six_letter_word :
  search_app_id (message_lower "Thanks") = true /\
  search_app_id (message_lower "track my file") = false /\
  search_app_id (message_lower "ok 1234567") = true.
Proof. vm_compute. repeat split. Qed.

Example classify_samples :
  fallback_intent_detection "Namaste" = greeting /\
  fallback_intent_detection "How much money can I get for house damage?" = exgratia_norms /\
  fallback_intent_detection "What documents do I need?" = application_procedure /\
  fallback_intent_detection "track my file" = status_check /\
  fallback_intent_detection "call me" = other /\
  fallback_intent_detection "help me" = help /\
  fallback_intent_detection "need support" = status_check /\
  fallback_intent_detection "what rupee" = exgratia_norms.
Proof. vm_compute. repeat split. Qed.

(** ** Intent classifier *)

Lemma classify_first_match (m : string) :
  fallback_intent_detection m = first_match rule_groups (message_lower m).
Proof.
  unfold fallback_intent_detection, rule_groups, first_match, message_lower.
  set (l := PyStr.lower (list_ascii_of_string m)).
  destruct (PyStr.any_in greeting_words l); [reflexivity|].
  destruct (PyStr.any_in norms_phrases l); [reflexivity|].
  destruct (PyStr.any_in procedure_phrases l); [reflexivity|].
  destruct (PyStr.any_in status_phrases l || search_app_id l); [reflexivity|].
  destruct (PyStr.any_in help_words l); [reflexivity|].
  destruct (PyStr.any_in question_words l); simpl; [|reflexivity].
  destruct (PyStr.any_in document_words l); [reflexivity|].
  destruct (PyStr.any_in money_words l); reflexivity.
Qed.

Lemma search_app_id_words (l : PyStr.text) :
  search_app_id l =
  existsb (Tokens.shaped Regex.lower_alnum 6 12) (Tokens.runs PyStr.is_word l).
Proof.
  unfold search_app_id. apply RegexFacts.search_runs.
  - exact CharFacts.lower_alnum_word.
  - lia.
Qed.

(** C1: the classifier returns the intent of the first rule group, in the
    order greeting, exgratia_norms, application_procedure, status_check,
    help, then the question-shaped pass, whose test holds; in particular
    the norms group is consulted before the procedure group: a message
    that contains both a norms phrase and a procedure phrase is never
    answered by the procedure group, its intent is exgratia_norms (or
    greeting, when the earlier greeting group matched); so
    "What is the eligibility and how do I apply?" is exgratia_norms. *)
Theorem classifier_priority_order :
  (forall m, fallback_intent_detection m = first_match rule_groups (message_lower m)) /\
  (forall m,
      PyStr.any_in norms_phrases (message_lower m) = true ->
      PyStr.any_in procedure_phrases (message_lower m) = true ->
      fallback_intent_detection m <> application_procedure /\
      fallback_intent_detection m =
      if PyStr.any_in greeting_words (message_lower m) then greeting else exgratia_norms) /\
  fallback_intent_detection "What is the eligibility and how do I apply?" = exgratia_norms.
Proof.
  split; [exact classify_first_match|]. split.
  - intros m Hn _.
    assert (E : fallback_intent_detection m =
                if PyStr.any_in greeting_words (message_lower m)
                then greeting else exgratia_norms).
    { unfold fallback_intent_detection. fold (message_lower m). rewrite Hn. reflexivity. }
    split; [|exact E]. rewrite E.
    destruct (PyStr.any_in greeting_words (message_lower m)); discriminate.
  - vm_compute. reflexivity.
Qed.

Lemma classifier_priority_order_witness :
  fallback_intent_detection "What is the eligibility and how do I apply?"
    <> application_procedure /\
  fallback_intent_detection "Hello, what is the eligibility and how do I apply?"
    <> application_procedure.
Proof.
  split.
  - apply (proj1 (proj2 classifier_priority_order)
                 "What is the eligibility and how do I apply?"); vm_compute; reflexivity.
  - apply (proj1 (proj2 classifier_priority_order)
                 "Hello, what is the eligibility and how do I apply?");
      vm_compute; reflexivity.
Defined.

(** C2 (as amended): when the lower-cased text matches no greeting, norms
    or procedure phrase, the classifier returns status_check exactly when
    the text contains a status phrase or a word (a maximal run of letters,
    digits and underscores) made of 6 to 12 characters of [a-z0-9]. *)
Theorem status_check_rule (m : string) :
  PyStr.any_in greeting_words (message_lower m) = false ->
  PyStr.any_in norms_phrases (message_lower m) = false ->
  PyStr.any_in procedure_phrases (message_lower m) = false ->
  (fallback_intent_detection m = status_check <->
   PyStr.any_in status_phrases (message_lower m) = true \/ has_id_word m = true).
Proof.
  unfold fallback_intent_detection, has_id_word, message_lower.
  intros -> -> ->. rewrite search_app_id_words.
  set (l := PyStr.lower (list_ascii_of_string m)).
  destruct (PyStr.any_in status_phrases l);
    destruct (existsb (Tokens.shaped Regex.lower_alnum 6 12) (Tokens.runs PyStr.is_word l));
    cbn [orb]; try (split; auto; fail).
  split; [|intros [H|H]; discriminate].
  destruct (PyStr.any_in help_words l); [discriminate|].
  destruct (PyStr.any_in question_words l); [|discriminate].
  destruct (PyStr.any_in document_words l); [discriminate|].
  destruct (PyStr.any_in money_words l); discriminate.
Qed.

Lemma status_check_rule_witness :
  fallback_intent_detection "23LDM786" = status_check.
Proof.
  apply (status_check_rule "23LDM786"); try (vm_compute; reflexivity).
  right. vm_compute. reflexivity.
Defined.

(** C2 as stated fails: "id_23ldm786" holds the alphanumeric token
    "23ldm786" (8 characters, between an underscore and the end of the
    text) and no greeting, norms or procedure phrase, yet it is classified
    other. *)
Lemma underscore_token_not_status :
  has_alnum_token "id_23ldm786" = true /\
  PyStr.any_in greeting_words (message_lower "id_23ldm786") = false /\
  PyStr.any_in norms_phrases (message_lower "id_23ldm786") = false /\
  PyStr.any_in procedure_phrases (message_lower "id_23ldm786") = false /\
  fallback_intent_detection "id_23ldm786" = other /\
  fallback_intent_detection "id_23ldm786" <> status_check.
Proof. vm_compute. repeat split; try reflexivity. discriminate. Qed.

(** C10: the rule-based classifier returns one of greeting, exgratia_norms,
    application_procedure, status_check, help, other and never apply_start;
    the intent handed to the dispatcher for a text message is never
    apply_start either. *)
Theorem classifier_never_apply_start (m : string) :
  In (fallback_intent_detection m)
     [greeting; exgratia_norms; application_procedure; status_check; help; other] /\
  fallback_intent_detection m <> apply_start /\
  get_intent_from_llm m <> apply_start.
Proof.
  assert (H : In (fallback_intent_detection m)
     [greeting; exgratia_norms; application_procedure; status_check; help; other]).
  { unfold fallback_intent_detection.
    set (l := PyStr.lower (list_ascii_of_string m)).
    repeat match goal with
           | |- context [if ?b then _ else _] => destruct b
           end; simpl; auto 10. }
  split; [exact H|].
  assert (N : fallback_intent_detection m <> apply_start).
  { intros E. rewrite E in H. simpl in H.
    repeat destruct H as [H|H]; try discriminate; contradiction. }
  split; exact N.
Qed.

(** ** Application-ID extractor *)

Module ExtractFacts.
Import PyStr Tokens TokenFacts.

Lemma upper_char_underscore (c : ascii) : upper_char c = "_"%char -> c = "_"%char.
Proof. CharFacts.by_cases c. Qed.

Lemma forallb_upper (p q : ascii -> bool) (s : text) :
  (forall c, p c = true -> q (upper_char c) = true) ->
  forallb p s = true -> forallb q (upper s) = true.
Proof.
  intros H. induction s as [|c s IH]; simpl; [reflexivity|].
  intros E. apply andb_true_iff in E as [Ec Es].
  rewrite (H c Ec), (IH Es). reflexivity.
Qed.

Lemma filter_none {A} (f : A -> bool) (l : list A) :
  (forall x, In x l -> f x = false) -> List.filter f l = [].
Proof.
  induction l as [|x l IH]; simpl; intros H; [reflexivity|].
  rewrite (H x) by (left; reflexivity). apply IH. intros; apply H; right; assumption.
Qed.

(** The extractor returns the words of the upper-cased text that are made
    of 6 to 12 characters of [A-Z0-9]. *)
Lemma extract_words (m : string) :
  extract_app_ids m =
  map string_of_list_ascii
      (List.filter (shaped Regex.upper_alnum 6 12)
                   (runs is_word (upper (list_ascii_of_string m)))).
Proof.
  unfold extract_app_ids. rewrite RegexFacts.findall_runs; [reflexivity| |lia].
  exact CharFacts.upper_alnum_word.
Qed.

Lemma extract_no_underscore (m : string) :
  ~ In "_"%char (list_ascii_of_string m) ->
  extract_app_ids m = spec_extract_app_ids m.
Proof.
  intros Hu. rewrite extract_words. unfold spec_extract_app_ids. f_equal.
  set (U := upper (list_ascii_of_string m)).
  assert (HU : forall c, In c U -> exists d, c = upper_char d /\ d <> "_"%char).
  { intros c Hc. apply in_map_iff in Hc as (d & <- & Hd).
    exists d. split; [reflexivity|]. intros ->. exact (Hu Hd). }
  rewrite (runs_ext is_word is_alnum U).
  - apply filter_ext_in. intros w Hw. unfold shaped.
    replace (forallb Regex.upper_alnum w) with true; [reflexivity|].
    symmetry. apply forallb_forall. intros c Hc.
    destruct (runs_chars is_alnum U w Hw c Hc) as [Ha Hin].
    destruct (HU c Hin) as (d & -> & _).
    rewrite CharFacts.upper_alnum_upper. rewrite CharFacts.upper_char_alnum in Ha. exact Ha.
  - intros c Hc. destruct (HU c Hc) as (d & -> & Hd).
    rewrite CharFacts.word_alnum_or_underscore.
    destruct (Ascii.eqb_spec (upper_char d) "_"%char) as [E|E].
    + apply upper_char_underscore in E. contradiction.
    + apply orb_false_r.
Qed.

(** One alphanumeric token between characters outside [\w]. *)
Lemma extract_single_token (pre tok post : text) :
  forallb (fun c => negb (is_word c)) pre = true ->
  forallb is_alnum tok = true ->
  tok <> [] ->
  forallb (fun c => negb (is_word c)) post = true ->
  extract_app_ids (string_of_list_ascii (pre ++ tok ++ post)) =
  if len_between 6 12 tok then [string_of_list_ascii (upper tok)] else [].
Proof.
  intros Hpre Htok Hne Hpost. rewrite extract_words.
  rewrite list_ascii_of_string_of_list_ascii. unfold upper.
  rewrite !map_app. fold (upper pre) (upper tok) (upper post).
  rewrite (runs_single is_word).
  - cbn [List.filter]. unfold shaped.
    rewrite (forallb_upper is_alnum Regex.upper_alnum tok) by
      (try exact Htok; intros c Hc; rewrite CharFacts.upper_alnum_upper; exact Hc).
    unfold len_between, upper. rewrite length_map. cbn [andb].
    destruct ((6 <=? length tok)%nat && (length tok <=? 12)%nat); reflexivity.
  - apply (forallb_upper (fun c => negb (is_word c))); [|exact Hpre].
    intros c Hc. rewrite CharFacts.upper_char_word. exact Hc.
  - apply (forallb_upper is_alnum); [|exact Htok].
    intros c Hc. rewrite CharFacts.upper_char_word, CharFacts.word_alnum_or_underscore, Hc.
    reflexivity.
  - destruct tok; [congruence | discriminate].
  - apply (forallb_upper (fun c => negb (is_word c))); [|exact Hpost].
    intros c Hc. rewrite CharFacts.upper_char_word. exact Hc.
Qed.

End ExtractFacts.

(** C3 (as amended): the extractor upper-cases its input and returns, from
    left to right, the maximal runs of word characters (letters, digits and
    underscores) that consist of 6 to 12 characters of [A-Z0-9]; on an
    ASCII text without underscore these are the maximal alphanumeric runs
    of 6 to 12 characters; and
    extractApplicationIds("My id is 23LDM786, thanks") is the two-element
    sequence ["23LDM786"; "THANKS"]. *)
Theorem extractor_returns_id_words :
  (forall m,
      extract_app_ids m =
      map string_of_list_ascii
          (List.filter (Tokens.shaped Regex.upper_alnum 6 12)
             (Tokens.runs PyStr.is_word (PyStr.upper (list_ascii_of_string m))))) /\
  (forall m,
      ascii_text m = true ->
      ~ In "_"%char (list_ascii_of_string m) ->
      extract_app_ids m = spec_extract_app_ids m) /\
  extract_app_ids "My id is 23LDM786, thanks" = ["23LDM786"; "THANKS"].
Proof.
  split; [exact ExtractFacts.extract_words|].
  split; [intros m _; exact (ExtractFacts.extract_no_underscore m)|].
  vm_compute. reflexivity.
Qed.

Lemma extractor_returns_id_words_witness :
  extract_app_ids "My id is 23LDM786, thanks" =
  spec_extract_app_ids "My id is 23LDM786, thanks".
Proof.
  apply (proj1 (proj2 extractor_returns_id_words)); [vm_compute; reflexivity|].
  vm_compute. intros H. repeat (destruct H as [H|H]; [discriminate|]). exact H.
Defined.

(** C3 as stated fails: the example text yields two identifiers, not one,
    and a token that touches an underscore is not returned although it is
    a maximal alphanumeric run of 8 characters. *)
Lemma extractor_example_two_ids :
  extract_app_ids "My id is 23LDM786, thanks" <> ["23LDM786"] /\
  extract_app_ids "ID_23LDM786" = [] /\
  spec_extract_app_ids "ID_23LDM786" = ["23LDM786"].
Proof. vm_compute. repeat split; try reflexivity. discriminate. Qed.

(** C4 (as amended): for an ASCII input that consists of one token of
    letters and digits surrounded by characters that are neither letters,
    digits nor underscores, the extractor returns the upper-cased token
    when its length is 6 or 12 and nothing when its length is 5 or 13; when
    no word of the upper-cased text has the identifier shape the result is
    the empty sequence. *)
Theorem extractor_length_boundaries :
  (forall pre tok post : PyStr.text,
      ascii_chars pre = true ->
      ascii_chars post = true ->
      forallb (fun c => negb (PyStr.is_word c)) pre = true ->
      forallb PyStr.is_alnum tok = true ->
      forallb (fun c => negb (PyStr.is_word c)) post = true ->
      (length tok = 6 \/ length tok = 12 ->
       extract_app_ids (string_of_list_ascii (pre ++ tok ++ post)) =
       [string_of_list_ascii (PyStr.upper tok)]) /\
      (length tok = 5 \/ length tok = 13 ->
       extract_app_ids (string_of_list_ascii (pre ++ tok ++ post)) = [])) /\
  (forall m,
      (forall w, In w (Tokens.runs PyStr.is_word (PyStr.upper (list_ascii_of_string m))) ->
                 Tokens.shaped Regex.upper_alnum 6 12 w = false) ->
      extract_app_ids m = []).
Proof.
  split.
  - intros pre tok post _ _ Hpre Htok Hpost.
    assert (E : tok <> [] ->
                extract_app_ids (string_of_list_ascii (pre ++ tok ++ post)) =
                if Tokens.len_between 6 12 tok
                then [string_of_list_ascii (PyStr.upper tok)] else [])
      by (intros; apply ExtractFacts.extract_single_token; assumption).
    unfold Tokens.len_between in E.
    split; intros [L|L]; rewrite E by (intros ->; discriminate); rewrite L; reflexivity.
  - intros m H. rewrite ExtractFacts.extract_words, ExtractFacts.filter_none by exact H.
    reflexivity.
Qed.

Lemma extractor_length_boundaries_witness :
  extract_app_ids " ABC123, " = ["ABC123"] /\
  extract_app_ids "(ABCDE)" = [] /\
  extract_app_ids "hi" = [].
Proof.
  pose proof (proj1 extractor_length_boundaries
                (list_ascii_of_string " ") (list_ascii_of_string "ABC123")
                (list_ascii_of_string ", ") eq_refl eq_refl eq_refl eq_refl eq_refl)
    as [H6 _].
  pose proof (proj1 extractor_length_boundaries
                (list_ascii_of_string "(") (list_ascii_of_string "ABCDE")
                (list_ascii_of_string ")") eq_refl eq_refl eq_refl eq_refl eq_refl)
    as [_ H5].
  split; [exact (H6 (or_introl eq_refl))|].
  split; [exact (H5 (or_introl eq_refl))|].
  apply (proj2 extractor_length_boundaries "hi").
  vm_compute. intros w H. repeat (destruct H as [H|H]; [subst w; reflexivity|]). contradiction.
Defined.

(** C4 as stated fails: in "_ABCDEF" the token "ABCDEF" has 6 characters
    and lies between an underscore and the end of the text, both
    non-alphanumeric, yet nothing is extracted. *)
Lemma token_after_underscore_not_extracted :
  forallb (fun c => negb (PyStr.is_alnum c)) (list_ascii_of_string "_") = true /\
  forallb PyStr.is_alnum (list_ascii_of_string "ABCDEF") = true /\
  length (list_ascii_of_string "ABCDEF") = 6 /\
  extract_app_ids (string_of_list_ascii
                     (list_ascii_of_string "_" ++ list_ascii_of_string "ABCDEF" ++ [])) = [] /\
  extract_app_ids "_ABCDEF" <> ["ABCDEF"].
Proof. vm_compute. repeat split; try reflexivity. discriminate. Qed.

(** ** Content store *)

(** C9 (as amended): reading a content file never raises; it returns the
    file's text when the file can be read, the fixed text "Information not
    available. Please contact support." when the file is absent, and the
    other fixed text "Error loading information. Please contact support."
    when the file exists but cannot be read. *)
Theorem load_file_content_fallbacks :
  _load_file_content Missing = "Information not available. Please contact support." /\
  (forall e, _load_file_content (Unreadable e) =
             "Error loading information. Please contact support.") /\
  (forall content, _load_file_content (Readable content) = content).
Proof. repeat split. Qed.

(** C9 as stated fails: for a file that exists and cannot be read the
    result is not the "Information not available" text. *)
Lemma unreadable_file_other_text :
  _load_file_content (Unreadable OSError) <> not_available_text /\
  _load_file_content (Unreadable OSError) =
  "Error loading information. Please contact support.".
Proof. split; [discriminate | reflexivity]. Qed.

(** ** Status lookup *)

Module LookupFacts.

Lemma select_rows_none (df : list ApplicationRecord) (app_id : string) :
  (forall row, In row df -> str_upper (application_id row) <> str_upper app_id) ->
  select_rows df app_id = [].
Proof.
  intros H. apply ExtractFacts.filter_none. intros row Hrow.
  apply String.eqb_neq. exact (H row Hrow).
Qed.

Lemma select_rows_first (pre post : list ApplicationRecord)
      (row : ApplicationRecord) (app_id : string) :
  (forall r, In r pre -> str_upper (application_id r) <> str_upper app_id) ->
  str_upper (application_id row) = str_upper app_id ->
  select_rows (pre ++ row :: post) app_id = row :: select_rows post app_id.
Proof.
  intros Hpre Hrow. unfold select_rows. rewrite List.filter_app.
  fold (select_rows pre app_id). rewrite (select_rows_none pre app_id Hpre).
  simpl. apply String.eqb_eq in Hrow. rewrite Hrow. reflexivity.
Qed.


(** What a status check does on a text message. *)
Lemma check_application_status_run
      (csv : CsvRead) (msg app_id : string) (c : Conversation) :
  check_application_status csv (text_update msg) app_id c =
  (Ok tt, {| user_data := delete waiting_key (user_data c);
             outbox := outbox c ++ [reply_text (status_view csv app_id)] |}).
Proof.
  unfold check_application_status, check_application_status_body, status_view,
    try_except, bind, lift, message_reply_text, send, pop_waiting.
  destruct csv as [e|df|ids]; simpl; [reflexivity| |reflexivity].
  destruct (lookup df app_id) as [row|]; simpl; [|reflexivity].
  destruct (amount row); reflexivity.
Qed.

End LookupFacts.




(** C6 (as amended): a status check on a text message always returns
    normally with exactly one view; every exception raised in it (reading
    the store raises, as for a missing file or a row the parser rejects;
    the application_id column is not text; the amount of the record found
    is not a number) yields the try-again error view and nothing else, so
    it is not reported as not-found.  A non-numeric amount in a record
    other than the one found raises nothing: the answer is then the
    not-found or the found view. *)
Theorem status_failure_error_view
        (csv : CsvRead) (msg app_id : string) (c : Conversation) :
  outcome (check_application_status csv (text_update msg) app_id) c = Ok tt /\
  (store_failure csv app_id ->
   exec (check_application_status csv (text_update msg) app_id) c =
   {| user_data := delete waiting_key (user_data c);
      outbox := outbox c ++ [reply_text StatusErrorView] |} /\
   forall id,
     outbox (exec (check_application_status csv (text_update msg) app_id) c) <>
     outbox c ++ [reply_text (StatusNotFoundView id)]) /\
  (forall df,
      csv = DataFrame df ->
      (forall row, In row df -> str_upper (application_id row) <> str_upper app_id) ->
      exec (check_application_status csv (text_update msg) app_id) c =
      {| user_data := delete waiting_key (user_data c);
         outbox := outbox c ++ [reply_text (StatusNotFoundView app_id)] |}).
Proof.
  unfold outcome, exec. rewrite LookupFacts.check_application_status_run. simpl.
  split; [reflexivity|]. split.
  - intros F.
    assert (V : status_view csv app_id = StatusErrorView).
    { destruct F as [e id | ids id | pre post row id s Hpre Hrow Hs]; simpl;
        try reflexivity.
      unfold lookup. rewrite LookupFacts.select_rows_first by assumption.
      rewrite Hs. reflexivity. }
    rewrite V. split; [reflexivity|].
    intros id E. apply app_inv_head in E. discriminate.
  - intros df -> H. simpl. unfold lookup.
    rewrite LookupFacts.select_rows_none by exact H. reflexivity.
Qed.

Lemma status_failure_error_view_witness :
  exec (check_application_status (CsvRaises FileNotFoundError)
                                 (text_update "23LDM786") "23LDM786") idle =
  {| user_data := delete waiting_key ∅; outbox := [reply_text StatusErrorView] |} /\
  exec (check_application_status (DataFrame [example_record; text_amount_record])
                                 (text_update "NOPE123") "NOPE123") idle =
  {| user_data := delete waiting_key ∅;
     outbox := [reply_text (StatusNotFoundView "NOPE123")] |} /\
  exec (check_application_status (DataFrame [text_amount_record])
                                 (text_update "23LDM786") "23LDM786") idle =
  {| user_data := delete waiting_key ∅; outbox := [reply_text StatusErrorView] |}.
Proof.
  split; [|split].
  - apply (proj1 (proj2 (status_failure_error_view (CsvRaises FileNotFoundError)
                                                   "23LDM786" "23LDM786" idle))
                 (read_raises FileNotFoundError "23LDM786")).
  - apply (proj2 (proj2 (status_failure_error_view
                           (DataFrame [example_record; text_amount_record])
                           "NOPE123" "NOPE123" idle))
                 [example_record; text_amount_record] eq_refl).
    intros row [<-|[<-|[]]]; vm_compute; discriminate.
  - apply (proj1 (proj2 (status_failure_error_view (DataFrame [text_amount_record])
                                                   "23LDM786" "23LDM786" idle))
                 (amount_not_numeric [] [] text_amount_record "23LDM786"
                                     "to be assessed" (fun r (H : In r []) => match H with end)
                                     eq_refl eq_refl)).
Defined.

(** C6 as stated fails: a store that holds a non-numeric amount, queried
    for an ID it does not have, is answered with the not-found view, not
    with the try-again view. *)
Lemma text_amount_elsewhere_not_found :
  amount text_amount_record = AStr "to be assessed" /\
  outbox (exec (check_application_status (DataFrame [text_amount_record])
                                         (text_update "NOPE123") "NOPE123") idle) =
  [reply_text (StatusNotFoundView "NOPE123")] /\
  outbox (exec (check_application_status (DataFrame [text_amount_record])
                                         (text_update "NOPE123") "NOPE123") idle) <>
  [reply_text StatusErrorView].
Proof. vm_compute. repeat split. discriminate. Qed.

(** ** Dialog controller *)

Module DialogFacts.

Lemma waiting_insert (c : Conversation) (o : list Sent) :
  waiting_for_app_id {| user_data := <[waiting_key := true]> (user_data c);
                        outbox := o |} = true.
Proof. unfold waiting_for_app_id. simpl. rewrite lookup_insert_eq. reflexivity. Qed.

Lemma waiting_delete (c : Conversation) (o : list Sent) :
  waiting_for_app_id {| user_data := delete waiting_key (user_data c);
                        outbox := o |} = false.
Proof. unfold waiting_for_app_id. simpl. rewrite lookup_delete_eq. reflexivity. Qed.

(** Asking for the ID on a text message: the prompt, then the flag. *)
Lemma ask_for_application_id_text (msg : string) (c : Conversation) :
  ask_for_application_id (text_update msg) c =
  (Ok tt, {| user_data := <[waiting_key := true]> (user_data c);
             outbox := outbox c ++ [reply_text StatusPromptView] |}).
Proof. reflexivity. Qed.

Lemma message_handler_text (self : SmartGovBot) (csv : CsvRead)
      (m : string) (c : Conversation) :
  message_handler self csv (text_update m) c =
  if waiting_for_app_id c then
    match extract_app_ids m with
    | app_id :: _ => check_application_status csv (text_update m) app_id c
    | [] => handle_intent self csv (text_update m) (get_intent_from_llm m) m c
    end
  else handle_intent self csv (text_update m) (get_intent_from_llm m) m c.
Proof. reflexivity. Qed.

(** The back-to-menu button runs the routine of the start command. *)
Lemma back_to_menu_dispatch (self : SmartGovBot) (update : Update) :
  callback_query update = Some "back_to_menu" ->
  button_handler self update = (send answer_query ;; start_command update)%handler.
Proof. unfold button_handler. intros ->. reflexivity. Qed.

Lemma start_command_user_data (update : Update) (c : Conversation) :
  user_data (exec (start_command update) c) = user_data c.
Proof.
  unfold exec, start_command, message_reply_text.
  destruct (message update); reflexivity.
Qed.

End DialogFacts.

(** C7: from a conversation that is not awaiting an ID, a text classified
    status_check from which no ID can be extracted makes the handler send
    the prompt and set the awaiting flag; on the next text, when the
    extractor yields at least one ID, the handler runs the status check
    with the first extracted ID and the flag is cleared. *)
Theorem awaiting_id_round_trip
        (self : SmartGovBot) (csv : CsvRead) (c : Conversation)
        (m1 m2 app_id : string) (more : list string) :
  waiting_for_app_id c = false ->
  fallback_intent_detection m1 = status_check ->
  extract_app_ids m1 = [] ->
  extract_app_ids m2 = app_id :: more ->
  let c1 := exec (message_handler self csv (text_update m1)) c in
  waiting_for_app_id c1 = true /\
  outbox c1 = outbox c ++ [reply_text StatusPromptView] /\
  message_handler self csv (text_update m2) c1 =
  check_application_status csv (text_update m2) app_id c1 /\
  waiting_for_app_id (exec (message_handler self csv (text_update m2)) c1) = false /\
  outbox (exec (message_handler self csv (text_update m2)) c1) =
  outbox c1 ++ [reply_text (status_view csv app_id)].
Proof.
  intros Hidle Hintent Hnone Hid c1.
  assert (E1 : c1 = {| user_data := <[waiting_key := true]> (user_data c);
                       outbox := outbox c ++ [reply_text StatusPromptView] |}).
  { subst c1. unfold exec. rewrite DialogFacts.message_handler_text.
    rewrite Hidle. unfold get_intent_from_llm. rewrite Hintent.
    unfold handle_intent. rewrite Hnone.
    rewrite DialogFacts.ask_for_application_id_text. reflexivity. }
  assert (W1 : waiting_for_app_id c1 = true)
    by (rewrite E1; apply DialogFacts.waiting_insert).
  assert (E2 : message_handler self csv (text_update m2) c1 =
               check_application_status csv (text_update m2) app_id c1).
  { rewrite DialogFacts.message_handler_text, W1, Hid. reflexivity. }
  split; [exact W1|]. split; [rewrite E1; reflexivity|]. split; [exact E2|].
  unfold exec. rewrite E2, LookupFacts.check_application_status_run. simpl.
  split; [apply DialogFacts.waiting_delete | reflexivity].
Qed.

Lemma awaiting_id_round_trip_witness :
  let c1 := exec (message_handler (init_bot Missing Missing) (DataFrame [example_record])
                                  (text_update "track")) idle in
  waiting_for_app_id c1 = true /\
  waiting_for_app_id
    (exec (message_handler (init_bot Missing Missing) (DataFrame [example_record])
                           (text_update "23LDM786")) c1) = false.
Proof.
  pose proof (awaiting_id_round_trip (init_bot Missing Missing) (DataFrame [example_record])
                idle "track" "23LDM786" "23LDM786" [] eq_refl) as H.
  simpl in H. destruct H as (H1 & _ & _ & H2 & _);
    [vm_compute; reflexivity | vm_compute; reflexivity | vm_compute; reflexivity |].
  split; [exact H1 | exact H2].
Defined.

(** C8 (as amended): on the back-to-menu event the handler acknowledges
    the button press and runs the routine of the start command, the one
    that renders the welcome/menu view; the awaiting-application-ID flag is
    left as it was (only a status check clears it). *)
Theorem back_to_menu_keeps_flag
        (self : SmartGovBot) (update : Update) (c : Conversation) :
  callback_query update = Some "back_to_menu" ->
  button_handler self update c = (send answer_query ;; start_command update)%handler c /\
  user_data (exec (button_handler self update) c) = user_data c /\
  waiting_for_app_id (exec (button_handler self update) c) = waiting_for_app_id c.
Proof.
  intros H. rewrite (DialogFacts.back_to_menu_dispatch self update H).
  assert (U : user_data (exec (send answer_query ;; start_command update)%handler c)
              = user_data c).
  { unfold exec, bind, send. simpl.
    apply (DialogFacts.start_command_user_data update
             {| user_data := user_data c; outbox := outbox c ++ [answer_query] |}). }
  split; [reflexivity|]. split; [exact U|].
  unfold waiting_for_app_id. rewrite U. reflexivity.
Qed.

Lemma back_to_menu_keeps_flag_witness :
  waiting_for_app_id
    (exec (button_handler (init_bot Missing Missing) (button_update "back_to_menu")) idle)
  = false.
Proof.
  apply (proj2 (proj2 (back_to_menu_keeps_flag (init_bot Missing Missing)
                         (button_update "back_to_menu") idle eq_refl))).
Defined.

(** C8 as stated fails: after the check-status button has set the awaiting
    flag, the back-to-menu event leaves it set. *)
Lemma back_to_menu_flag_still_set :
  let bot := init_bot Missing Missing in
  let c1 := exec (button_handler bot (button_update "option_3")) idle in
  waiting_for_app_id c1 = true /\
  waiting_for_app_id (exec (button_handler bot (button_update "back_to_menu")) c1) = true.
Proof. vm_compute. split; reflexivity. Qed.

(** * Further properties *)

(** ** Substrings, letter case and runs *)

Module TextFacts.
Import PyStr Tokens TokenFacts.

Lemma list_ascii_of_string_app (a b : string) :
  list_ascii_of_string (a ++ b) = list_ascii_of_string a ++ list_ascii_of_string b.
Proof. induction a as [|c a IH]; simpl; [reflexivity | rewrite IH; reflexivity]. Qed.

Lemma starts_with_app (p s : text) : starts_with p (p ++ s) = true.
Proof.
  induction p as [|c p IH]; simpl; [reflexivity|].
  rewrite Ascii.eqb_refl, IH. reflexivity.
Qed.

(** A text contains what it was put together from. *)
Lemma contains_app (p a b : text) : contains p (a ++ p ++ b) = true.
Proof.
  induction a as [|c a IH]; simpl.
  - pose proof (starts_with_app p b) as H.
    destruct (p ++ b); simpl; rewrite H; reflexivity.
  - rewrite IH. apply orb_true_r.
Qed.

Lemma lower_upper_char (c : ascii) : lower_char (upper_char c) = lower_char c.
Proof. CharFacts.by_cases c. Qed.

Lemma upper_lower_char (c : ascii) : upper_char (lower_char c) = upper_char c.
Proof. CharFacts.by_cases c. Qed.

Lemma lower_lower_char (c : ascii) : lower_char (lower_char c) = lower_char c.
Proof. CharFacts.by_cases c. Qed.

Lemma upper_char_fixed (c : ascii) : Regex.upper_alnum c = true -> upper_char c = c.
Proof. CharFacts.by_cases c. Qed.

Lemma upper_alnum_alnum (c : ascii) : Regex.upper_alnum c = true -> is_alnum c = true.
Proof. CharFacts.by_cases c. Qed.

Lemma lower_alnum_lower (c : ascii) : Regex.lower_alnum (lower_char c) = is_alnum c.
Proof. CharFacts.by_cases c. Qed.

Lemma lower_upper (s : text) : lower (upper s) = lower s.
Proof. unfold lower, upper. rewrite map_map. apply map_ext, lower_upper_char. Qed.

Lemma upper_lower (s : text) : upper (lower s) = upper s.
Proof. unfold lower, upper. rewrite map_map. apply map_ext, upper_lower_char. Qed.

Lemma lower_lower (s : text) : lower (lower s) = lower s.
Proof. unfold lower. rewrite map_map. apply map_ext, lower_lower_char. Qed.

Lemma upper_fixed (w : text) : forallb Regex.upper_alnum w = true -> upper w = w.
Proof.
  induction w as [|c w IH]; simpl; [reflexivity|]. intros H.
  apply andb_true_iff in H as [Hc Hw]. rewrite (upper_char_fixed c Hc), (IH Hw).
  reflexivity.
Qed.

Lemma push_app (w : text) (l1 l2 : list text) : push w (l1 ++ l2) = push w l1 ++ l2.
Proof. destruct w; reflexivity. Qed.

(** Cutting a mapped text, when the map keeps the test. *)
Lemma runs_map (p : ascii -> bool) (f : ascii -> ascii) (s : text) :
  (forall c, p (f c) = p c) ->
  runs p (map f s) = map (map f) (runs p s).
Proof.
  intros H. unfold runs.
  assert (E : split_runs p (map f s) =
              (map f (fst (split_runs p s)), map (map f) (snd (split_runs p s)))).
  { induction s as [|c s IH]; simpl; [reflexivity|].
    rewrite IH, H. destruct (split_runs p s) as [w ws]; simpl.
    destruct (p c); [reflexivity|]. destruct w; reflexivity. }
  rewrite E. destruct (split_runs p s) as [w ws]; simpl. destruct w; reflexivity.
Qed.

(** Cutting two texts joined by a separator. *)
Lemma runs_app_sep (p : ascii -> bool) (a b : text) (c : ascii) :
  p c = false -> runs p (a ++ c :: b) = runs p a ++ runs p b.
Proof.
  intros Hc. unfold runs.
  assert (E : split_runs p (a ++ c :: b) =
              (fst (split_runs p a), snd (split_runs p a) ++ runs p b)).
  { induction a as [|x a IH]; simpl.
    - rewrite Hc. unfold runs. destruct (split_runs p b); reflexivity.
    - rewrite IH. destruct (split_runs p a) as [w ws]; simpl.
      destruct (p x); [reflexivity|]. rewrite push_app. reflexivity. }
  rewrite E. destruct (split_runs p a) as [w ws]; simpl. apply push_app.
Qed.

Lemma shaped_lower (w : text) :
  shaped Regex.lower_alnum 6 12 (map lower_char w) = id_like w.
Proof.
  unfold shaped, id_like, len_between. rewrite length_map. f_equal.
  induction w as [|c w IH]; simpl; [reflexivity|].
  rewrite lower_alnum_lower, IH. reflexivity.
Qed.

Lemma shaped_upper (w : text) :
  shaped Regex.upper_alnum 6 12 (map upper_char w) = id_like w.
Proof.
  unfold shaped, id_like, len_between. rewrite length_map. f_equal.
  induction w as [|c w IH]; simpl; [reflexivity|].
  rewrite CharFacts.upper_alnum_upper, IH. reflexivity.
Qed.

(** Both patterns of the program single out the same words of a text. *)
Lemma search_words (l : text) :
  search_app_id (lower l) = existsb id_like (runs is_word l).
Proof.
  rewrite search_app_id_words. unfold lower.
  rewrite runs_map by exact CharFacts.lower_char_word.
  induction (runs is_word l) as [|w ws IH]; simpl; [reflexivity|].
  rewrite shaped_lower, IH. reflexivity.
Qed.

Lemma extract_id_like (m : string) :
  extract_app_ids m =
  map (fun w => string_of_list_ascii (upper w))
      (List.filter id_like (runs is_word (list_ascii_of_string m))).
Proof.
  rewrite ExtractFacts.extract_words. unfold upper at 1.
  rewrite runs_map by exact CharFacts.upper_char_word.
  induction (runs is_word (list_ascii_of_string m)) as [|w ws IH]; simpl; [reflexivity|].
  rewrite shaped_upper. destruct (id_like w); simpl; rewrite IH; reflexivity.
Qed.

Lemma search_iff_extract (m : string) :
  search_app_id (message_lower m) = true <-> extract_app_ids m <> [].
Proof.
  unfold message_lower. rewrite search_words, extract_id_like.
  induction (runs is_word (list_ascii_of_string m)) as [|w ws IH]; simpl.
  - split; [discriminate | congruence].
  - destruct (id_like w); simpl; [split; [discriminate | reflexivity] | exact IH].
Qed.

End TextFacts.

(** ** More on the classifier *)

Module ClassifierFacts.
Import PyStr.

Lemma message_lower_upper (m : string) : message_lower (str_upper m) = message_lower m.
Proof.
  unfold message_lower, str_upper.
  rewrite list_ascii_of_string_of_list_ascii. apply TextFacts.lower_upper.
Qed.

Lemma message_lower_lower (m : string) : message_lower (str_lower m) = message_lower m.
Proof.
  unfold message_lower, str_lower.
  rewrite list_ascii_of_string_of_list_ascii. apply TextFacts.lower_lower.
Qed.

Lemma any_in_app (words : list string) (w : string) (a b : text) :
  In w words -> any_in words (a ++ list_ascii_of_string w ++ b) = true.
Proof.
  intros H. unfold any_in. apply existsb_exists. exists w.
  split; [exact H | apply TextFacts.contains_app].
Qed.

(** Without a norms phrase, the only money word a text can hold is "rupee". *)
Lemma money_words_rupee (l : text) :
  any_in norms_phrases l = false ->
  any_in money_words l = contains (list_ascii_of_string "rupee") l.
Proof.
  unfold any_in, norms_phrases, money_words. cbn [existsb]. intros H.
  repeat match type of H with
         | (_ || _)%bool = false => apply orb_false_iff in H as [? H]
         end.
  repeat match goal with
         | E : contains _ l = false |- _ => rewrite E; clear E
         end.
  rewrite orb_false_r. reflexivity.
Qed.

(** Classified status_check without an ID: a status phrase matched. *)
Lemma status_phrase_without_id (m : string) :
  fallback_intent_detection m = status_check ->
  extract_app_ids m = [] ->
  any_in status_phrases (message_lower m) = true.
Proof.
  intros Hc Hx.
  assert (S : search_app_id (message_lower m) = false).
  { destruct (search_app_id (message_lower m)) eqn:E; [|reflexivity].
    apply TextFacts.search_iff_extract in E. contradiction. }
  revert Hc. unfold fallback_intent_detection. fold (message_lower m). rewrite S.
  destruct (any_in status_phrases (message_lower m)); [reflexivity|].
  cbn [orb].
  repeat match goal with
         | |- context [if ?b then _ else _] => destruct b
         end; discriminate.
Qed.

End ClassifierFacts.

(** X1: on ASCII text classification does not depend on letter case: the
    upper-cased and the lower-cased message get the intent of the message
    itself. *)
Theorem classify_ignores_case (m : string) :
  ascii_text m = true ->
  fallback_intent_detection (str_upper m) = fallback_intent_detection m /\
  fallback_intent_detection (str_lower m) = fallback_intent_detection m.
Proof.
  intros _. rewrite !classify_first_match.
  rewrite ClassifierFacts.message_lower_upper, ClassifierFacts.message_lower_lower.
  split; reflexivity.
Qed.

Lemma classify_ignores_case_witness :
  fallback_intent_detection (str_upper "How much for crop loss?") =
  fallback_intent_detection "How much for crop loss?" /\
  fallback_intent_detection (str_lower "How much for crop loss?") =
  fallback_intent_detection "How much for crop loss?".
Proof. apply (classify_ignores_case "How much for crop loss?"). reflexivity. Defined.

(** X2: a greeting word wins wherever it occurs, in any letter case, also
    inside a longer word and next to any other phrase. *)
Theorem greeting_word_anywhere (w : string) (pre mid post : string) :
  In w greeting_words ->
  str_lower mid = w ->
  fallback_intent_detection (pre ++ mid ++ post) = greeting.
Proof.
  intros Hw Hmid. unfold fallback_intent_detection.
  rewrite !TextFacts.list_ascii_of_string_app. unfold PyStr.lower. rewrite !map_app.
  fold (PyStr.lower (list_ascii_of_string mid)).
  replace (PyStr.lower (list_ascii_of_string mid)) with (list_ascii_of_string w).
  - rewrite ClassifierFacts.any_in_app by exact Hw. reflexivity.
  - subst w. unfold str_lower. rewrite list_ascii_of_string_of_list_ascii. reflexivity.
Qed.

Lemma greeting_word_anywhere_witness :
  fallback_intent_detection ("W" ++ "Hi" ++ "ch documents?") = greeting.
Proof.
  apply (greeting_word_anywhere "hi" "W" "Hi" "ch documents?").
  - right. left. reflexivity.
  - reflexivity.
Defined.

(** X3: on ASCII text the classifier's ID pattern on the lower-cased text
    and the extractor's ID pattern on the upper-cased text agree: the first
    finds a match exactly when the second returns at least one ID. *)
Theorem id_pattern_agrees_with_extractor (m : string) :
  ascii_text m = true ->
  (search_app_id (message_lower m) = true <-> extract_app_ids m <> []).
Proof. intros _. exact (TextFacts.search_iff_extract m). Qed.

Lemma id_pattern_agrees_with_extractor_witness :
  search_app_id (message_lower "ref 23LDM786") = true <->
  extract_app_ids "ref 23LDM786" <> [].
Proof. apply (id_pattern_agrees_with_extractor "ref 23LDM786"). reflexivity. Defined.

(** X4: an ASCII message classified status_check from which no ID can be
    extracted contains a status phrase; so the prompt for an ID is only
    reached through a status phrase. *)
Theorem status_check_without_id (m : string) :
  ascii_text m = true ->
  fallback_intent_detection m = status_check ->
  extract_app_ids m = [] ->
  PyStr.any_in status_phrases (message_lower m) = true.
Proof. intros _. exact (ClassifierFacts.status_phrase_without_id m). Qed.

Lemma status_check_without_id_witness :
  PyStr.any_in status_phrases (message_lower "track") = true.
Proof.
  apply (status_check_without_id "track"); vm_compute; reflexivity.
Defined.

(** X5: without a norms phrase the intent exgratia_norms is only reached
    through the question pass, and then the text holds a question word and
    the word "rupee": the other money words of that pass are norms phrases
    already. *)
Theorem norms_by_question_needs_rupee (m : string) :
  fallback_intent_detection m = exgratia_norms ->
  PyStr.any_in norms_phrases (message_lower m) = false ->
  PyStr.any_in question_words (message_lower m) = true /\
  PyStr.contains (list_ascii_of_string "rupee") (message_lower m) = true.
Proof.
  intros Hc Hn. rewrite <- (ClassifierFacts.money_words_rupee _ Hn).
  revert Hc. unfold fallback_intent_detection. fold (message_lower m). rewrite Hn.
  repeat match goal with
         | |- context [if ?b then _ else _] => destruct b eqn:?
         end; try discriminate.
  intros _. split; reflexivity.
Qed.

Lemma norms_by_question_needs_rupee_witness :
  PyStr.any_in question_words (message_lower "what rupee") = true /\
  PyStr.contains (list_ascii_of_string "rupee") (message_lower "what rupee") = true.
Proof.
  apply (norms_by_question_needs_rupee "what rupee"); vm_compute; reflexivity.
Defined.

(** ** More on the extractor *)

Module ExtractorFacts.
Import PyStr Tokens.

Lemma upper_upper (s : text) : upper (upper s) = upper s.
Proof.
  unfold upper. rewrite map_map. apply map_ext. intros c. CharFacts.by_cases c.
Qed.

Lemma string_length_list (s : string) : String.length s = length (list_ascii_of_string s).
Proof. induction s as [|c s IH]; simpl; [reflexivity | rewrite IH; reflexivity]. Qed.

(** An extracted ID comes from a shaped word. *)
Lemma extracted_shape (m id : string) :
  In id (extract_app_ids m) ->
  shaped Regex.upper_alnum 6 12 (list_ascii_of_string id) = true.
Proof.
  rewrite ExtractFacts.extract_words. intros H.
  apply in_map_iff in H as (w & <- & Hw).
  apply filter_In in Hw as [_ Hw].
  rewrite list_ascii_of_string_of_list_ascii. exact Hw.
Qed.

Lemma extract_shaped_alone (w : text) :
  shaped Regex.upper_alnum 6 12 w = true ->
  extract_app_ids (string_of_list_ascii w) = [string_of_list_ascii w].
Proof.
  intros H. unfold shaped in H. apply andb_true_iff in H as [Hc Hl].
  pose proof (ExtractFacts.extract_single_token [] w []) as E.
  simpl in E. rewrite app_nil_r in E. rewrite E; clear E.
  - rewrite Hl, (TextFacts.upper_fixed w Hc). reflexivity.
  - reflexivity.
  - apply forallb_forall. intros c Hin.
    apply TextFacts.upper_alnum_alnum. rewrite forallb_forall in Hc. auto.
  - intros ->. discriminate.
  - reflexivity.
Qed.

Lemma extract_app_sep (a b : string) (sep : ascii) :
  is_word sep = false ->
  extract_app_ids (a ++ String sep b) = extract_app_ids a ++ extract_app_ids b.
Proof.
  intros Hsep. rewrite !ExtractFacts.extract_words.
  rewrite TextFacts.list_ascii_of_string_app. cbn [list_ascii_of_string].
  unfold upper. rewrite map_app. cbn [map].
  rewrite TextFacts.runs_app_sep by (rewrite CharFacts.upper_char_word; exact Hsep).
  rewrite List.filter_app, map_app. reflexivity.
Qed.

(** A word of 6 to 12 letters and digits, alone, is its own upper-cased ID. *)
Lemma extract_id_like_alone (w : string) :
  id_like (list_ascii_of_string w) = true ->
  extract_app_ids w = [str_upper w].
Proof.
  intros H. unfold id_like in H. apply andb_true_iff in H as [Hc Hl].
  pose proof (ExtractFacts.extract_single_token [] (list_ascii_of_string w) []) as E.
  simpl in E. rewrite app_nil_r, string_of_list_ascii_of_string, Hl in E.
  apply E; try reflexivity; try exact Hc.
  intros N. rewrite N in Hl. discriminate.
Qed.

End ExtractorFacts.

(** X6: every extracted ID consists of 6 to 12 characters, each an
    upper-case letter or a digit. *)
Theorem extracted_id_shape (m id : string) :
  In id (extract_app_ids m) ->
  forallb Regex.upper_alnum (list_ascii_of_string id) = true /\
  6 <= String.length id <= 12.
Proof.
  intros H. apply ExtractorFacts.extracted_shape in H.
  unfold Tokens.shaped, Tokens.len_between in H.
  apply andb_true_iff in H as [Hc Hl]. apply andb_true_iff in Hl as [H6 H12].
  apply Nat.leb_le in H6, H12. rewrite ExtractorFacts.string_length_list.
  split; [exact Hc | lia].
Qed.

Lemma extracted_id_shape_witness :
  forallb Regex.upper_alnum (list_ascii_of_string "23LDM786") = true /\
  6 <= String.length "23LDM786" <= 12.
Proof.
  apply (extracted_id_shape "my id is 23ldm786" "23LDM786").
  vm_compute. left. reflexivity.
Defined.

(** X7: an extracted ID is a fixed point of the extractor: extracting from
    the ID alone returns exactly that ID. *)
Theorem extracted_id_extracts_itself (m id : string) :
  In id (extract_app_ids m) -> extract_app_ids id = [id].
Proof.
  intros H. apply ExtractorFacts.extracted_shape in H.
  apply ExtractorFacts.extract_shaped_alone in H.
  rewrite string_of_list_ascii_of_string in H. exact H.
Qed.

Lemma extracted_id_extracts_itself_witness :
  extract_app_ids "THANKS" = ["THANKS"].
Proof.
  apply (extracted_id_extracts_itself "My id is 23LDM786, thanks" "THANKS").
  vm_compute. right. left. reflexivity.
Defined.

(** X8: on ASCII text extraction does not depend on letter case: the
    upper-cased and the lower-cased message yield the IDs of the message
    itself. *)
Theorem extract_ignores_case (m : string) :
  ascii_text m = true ->
  extract_app_ids (str_upper m) = extract_app_ids m /\
  extract_app_ids (str_lower m) = extract_app_ids m.
Proof.
  intros _. unfold extract_app_ids, str_upper, str_lower.
  rewrite !list_ascii_of_string_of_list_ascii.
  rewrite ExtractorFacts.upper_upper, TextFacts.upper_lower. split; reflexivity.
Qed.

Lemma extract_ignores_case_witness :
  extract_app_ids (str_upper "id 23ldm786") = extract_app_ids "id 23ldm786" /\
  extract_app_ids (str_lower "id 23ldm786") = extract_app_ids "id 23ldm786".
Proof. apply (extract_ignores_case "id 23ldm786"). reflexivity. Defined.

(** X9: the IDs of two ASCII texts joined by an ASCII character outside
    [A-Za-z0-9_] are the IDs of the first text followed by the IDs of the
    second. *)
Theorem extract_joined_texts (a b : string) (sep : ascii) :
  ascii_text a = true ->
  ascii_text b = true ->
  is_ascii sep = true ->
  PyStr.is_word sep = false ->
  extract_app_ids (a ++ String sep b) = extract_app_ids a ++ extract_app_ids b.
Proof. intros _ _ _. exact (ExtractorFacts.extract_app_sep a b sep). Qed.

Lemma extract_joined_texts_witness :
  extract_app_ids ("ref 23LDM786" ++ String "," " and 24ABC999") =
  extract_app_ids "ref 23LDM786" ++ extract_app_ids " and 24ABC999".
Proof.
  apply (extract_joined_texts "ref 23LDM786" " and 24ABC999" ","); reflexivity.
Defined.

(** ** More on the status lookup *)

Module LookupMore.

Lemma filter_first {A} (f : A -> bool) (l : list A) (x : A) (t : list A) :
  List.filter f l = x :: t ->
  exists pre post, l = pre ++ x :: post /\ (forall y, In y pre -> f y = false) /\ f x = true.
Proof.
  induction l as [|a l IH]; simpl; [discriminate|].
  destruct (f a) eqn:E.
  - intros H. injection H as -> _. exists [], l. repeat split; [intros y []| exact E].
  - intros H. destruct (IH H) as (pre & post & -> & Hpre & Hx).
    exists (a :: pre), post. repeat split; [|exact Hx].
    intros y [<-|Hy]; [exact E | exact (Hpre y Hy)].
Qed.

Lemma lookup_found (df : list ApplicationRecord) (app_id : string) (row : ApplicationRecord) :
  lookup df app_id = Found row ->
  exists pre post,
    df = pre ++ row :: post /\
    (forall r, In r pre -> str_upper (application_id r) <> str_upper app_id) /\
    str_upper (application_id row) = str_upper app_id.
Proof.
  unfold lookup. destruct (select_rows df app_id) as [|r t] eqn:E; [discriminate|].
  intros H. injection H as ->. unfold select_rows in E.
  apply filter_first in E as (pre & post & -> & Hpre & Hrow).
  exists pre, post. repeat split.
  - intros r Hr. apply String.eqb_neq. exact (Hpre r Hr).
  - apply String.eqb_eq. exact Hrow.
Qed.

Lemma lookup_not_found (df : list ApplicationRecord) (app_id : string) :
  lookup df app_id = NotFound ->
  forall row, In row df -> str_upper (application_id row) <> str_upper app_id.
Proof.
  unfold lookup. destruct (select_rows df app_id) as [|r t] eqn:E; [|discriminate].
  intros _ row Hrow Heq. apply String.eqb_eq in Heq.
  assert (Hin : In row (select_rows df app_id))
    by (unfold select_rows; apply filter_In; split; assumption).
  rewrite E in Hin. contradiction.
Qed.

End LookupMore.

(** X10: a lookup that answers Found returns a row of the table whose ID
    equals the query up to letter case and that has no such row before it;
    a lookup that answers NotFound means no row of the table has that ID. *)
Theorem lookup_answer_sound (df : list ApplicationRecord) (app_id : string) :
  (forall row,
      lookup df app_id = Found row ->
      exists pre post,
        df = pre ++ row :: post /\
        (forall r, In r pre -> str_upper (application_id r) <> str_upper app_id) /\
        str_upper (application_id row) = str_upper app_id) /\
  (lookup df app_id = NotFound ->
   forall row, In row df -> str_upper (application_id row) <> str_upper app_id).
Proof.
  split; [intros row; apply LookupMore.lookup_found | apply LookupMore.lookup_not_found].
Qed.

Lemma lookup_answer_sound_witness :
  exists pre post,
    [example_record] = pre ++ example_record :: post /\
    (forall r, In r pre -> str_upper (application_id r) <> str_upper "23ldm786") /\
    str_upper (application_id example_record) = str_upper "23ldm786".
Proof.
  apply (proj1 (lookup_answer_sound [example_record] "23ldm786") example_record).
  vm_compute. reflexivity.
Defined.


(** ** More on the dialog controller *)

Module DialogMore.

Lemma handle_intent_text (self : SmartGovBot) (csv : CsvRead)
      (intent : Intent) (m : string) (c : Conversation) :
  handle_intent self csv (text_update m) intent m c =
  match intent with
  | greeting => (Ok tt, {| user_data := user_data c;
                           outbox := outbox c ++ [reply_text WelcomeView] |})
  | exgratia_norms =>
      (Ok tt, {| user_data := user_data c;
                 outbox := outbox c ++ [reply_text (NormsView (exgratia_norms_text self))] |})
  | application_procedure | apply_start =>
      (Ok tt, {| user_data := user_data c;
                 outbox := outbox c ++
                           [reply_text (ProcedureView (application_procedure_text self))] |})
  | status_check =>
      match extract_app_ids m with
      | app_id :: _ =>
          (Ok tt, {| user_data := delete waiting_key (user_data c);
                     outbox := outbox c ++ [reply_text (status_view csv app_id)] |})
      | [] =>
          (Ok tt, {| user_data := <[waiting_key := true]> (user_data c);
                     outbox := outbox c ++ [reply_text StatusPromptView] |})
      end
  | help => (Ok tt, {| user_data := user_data c;
                       outbox := outbox c ++ [reply_text HelpView] |})
  | other => (Ok tt, {| user_data := user_data c;
                        outbox := outbox c ++ [reply_text FallbackView] |})
  end.
Proof.
  destruct intent; try reflexivity.
  unfold handle_intent. destruct (extract_app_ids m) as [|app_id more].
  - apply DialogFacts.ask_for_application_id_text.
  - apply LookupFacts.check_application_status_run.
Qed.

Lemma message_handler_step (self : SmartGovBot) (csv : CsvRead)
      (m : string) (c : Conversation) :
  text_step c (message_handler self csv (text_update m) c).
Proof.
  rewrite DialogFacts.message_handler_text.
  assert (H : text_step c (handle_intent self csv (text_update m)
                                         (get_intent_from_llm m) m c)).
  { rewrite handle_intent_text.
    destruct (get_intent_from_llm m); try apply step_keep.
    destruct (extract_app_ids m); [apply step_set | apply step_clear]. }
  destruct (waiting_for_app_id c); [|exact H].
  destruct (extract_app_ids m) as [|app_id more]; [exact H|].
  rewrite LookupFacts.check_application_status_run. apply step_clear.
Qed.

(** The awaiting flag after one event. *)
Lemma waiting_step (self : SmartGovBot) (csv : CsvRead) (e : Event) (c : Conversation) :
  waiting_for_app_id (exec (handle_event self csv e) c) =
  next_waiting e (waiting_for_app_id c).
Proof.
  destruct e as [| |data|text]; try reflexivity.
  - unfold exec, handle_event, update_of, button_handler, next_waiting.
    cbn [callback_query button_update].
    destruct (String.eqb_spec data "option_1") as [->|_]; [reflexivity|].
    destruct (String.eqb_spec data "option_2") as [->|_]; [reflexivity|].
    destruct (String.eqb_spec data "option_3") as [->|_].
    { apply (DialogFacts.waiting_insert
               {| user_data := user_data c; outbox := outbox c ++ [answer_query] |}). }
    destruct (String.eqb_spec data "help") as [->|_]; [reflexivity|].
    destruct (String.eqb_spec data "back_to_menu") as [->|_]; reflexivity.
  - unfold exec, handle_event, update_of, next_waiting.
    rewrite DialogFacts.message_handler_text, handle_intent_text.
    unfold get_intent_from_llm.
    destruct (extract_app_ids text) as [|app_id more] eqn:X.
    + destruct (fallback_intent_detection text);
        destruct (waiting_for_app_id c) eqn:W; cbn [snd]; try exact W;
        apply DialogFacts.waiting_insert.
    + destruct (waiting_for_app_id c) eqn:W.
      * rewrite LookupFacts.check_application_status_run. apply DialogFacts.waiting_delete.
      * destruct (fallback_intent_detection text); cbn [snd]; try exact W.
        apply DialogFacts.waiting_delete.
Qed.

(** [context.user_data] after one event: as before, with the flag set, or
    with the flag removed. *)
Lemma user_data_step (self : SmartGovBot) (csv : CsvRead) (e : Event) (c : Conversation) :
  let ud := user_data (exec (handle_event self csv e) c) in
  ud = user_data c \/
  ud = <[waiting_key := true]> (user_data c) \/
  ud = delete waiting_key (user_data c).
Proof.
  destruct e as [| |data|text]; cbn zeta; try (left; reflexivity).
  - unfold exec, handle_event, update_of, button_handler.
    cbn [callback_query button_update].
    destruct (String.eqb_spec data "option_1") as [->|_]; [left; reflexivity|].
    destruct (String.eqb_spec data "option_2") as [->|_]; [left; reflexivity|].
    destruct (String.eqb_spec data "option_3") as [->|_]; [right; left; reflexivity|].
    destruct (String.eqb_spec data "help") as [->|_]; [left; reflexivity|].
    destruct (String.eqb_spec data "back_to_menu") as [->|_]; left; reflexivity.
  - unfold exec, handle_event, update_of.
    destruct (message_handler_step self csv text c); cbn [snd user_data]; auto.
Qed.

Lemma run_app (self : SmartGovBot) (csv : CsvRead) (es1 es2 : list Event) (c : Conversation) :
  run self csv (es1 ++ es2) c = run self csv es2 (run self csv es1 c).
Proof. revert c; induction es1 as [|e es1 IH]; intros c; simpl; [reflexivity | apply IH]. Qed.

End DialogMore.

(** X13: every text message is answered: the handler returns normally and
    sends exactly one view, as a reply. *)
Theorem text_message_one_reply
        (self : SmartGovBot) (csv : CsvRead) (m : string) (c : Conversation) :
  outcome (message_handler self csv (text_update m)) c = Ok tt /\
  exists v,
    outbox (exec (message_handler self csv (text_update m)) c) =
    outbox c ++ [reply_text v].
Proof.
  unfold outcome, exec.
  destruct (DialogMore.message_handler_step self csv m c) as [v|v|v];
    (split; [reflexivity | exists v; reflexivity]).
Qed.

(** X14: on a button press the handler acknowledges the press first; for
    the help and the back-to-menu buttons it then raises AttributeError
    without sending a view (the routines they call reply through
    update.message, which a button press does not have); for every other
    button it returns normally. *)
Theorem button_press_outcome (self : SmartGovBot) (data : string) (c : Conversation) :
  (data = "help" \/ data = "back_to_menu" ->
   button_handler self (button_update data) c =
   (Raise AttributeError,
    {| user_data := user_data c; outbox := outbox c ++ [answer_query] |})) /\
  (data <> "help" -> data <> "back_to_menu" ->
   outcome (button_handler self (button_update data)) c = Ok tt).
Proof.
  split.
  - intros [->| ->]; reflexivity.
  - intros H1 H2. unfold outcome, button_handler. cbn [callback_query button_update].
    destruct (String.eqb_spec data "option_1") as [->|_]; [reflexivity|].
    destruct (String.eqb_spec data "option_2") as [->|_]; [reflexivity|].
    destruct (String.eqb_spec data "option_3") as [->|_]; [reflexivity|].
    destruct (String.eqb_spec data "help") as [->|_]; [contradiction|].
    destruct (String.eqb_spec data "back_to_menu") as [->|_]; [contradiction|].
    reflexivity.
Qed.

Lemma button_press_outcome_witness :
  button_handler (init_bot Missing Missing) (button_update "help") idle =
  (Raise AttributeError, {| user_data := ∅; outbox := [answer_query] |}) /\
  outcome (button_handler (init_bot Missing Missing) (button_update "option_1")) idle = Ok tt.
Proof.
  pose proof (button_press_outcome (init_bot Missing Missing) "help" idle) as [H _].
  pose proof (button_press_outcome (init_bot Missing Missing) "option_1" idle) as [_ K].
  split; [apply H; left; reflexivity | apply K; discriminate].
Defined.


(** X16: the awaiting state is left only by a text message from which an
    ID can be extracted; no command, button or other text ends it. *)
Theorem awaiting_left_only_by_id_text
        (self : SmartGovBot) (csv : CsvRead) (e : Event) (c : Conversation) :
  waiting_for_app_id c = true ->
  waiting_for_app_id (exec (handle_event self csv e) c) = false ->
  exists text app_id more, e = TextMessage text /\ extract_app_ids text = app_id :: more.
Proof.
  intros W. rewrite DialogMore.waiting_step, W.
  destruct e as [| |data|text]; simpl; try discriminate.
  - rewrite orb_true_r. discriminate.
  - destruct (extract_app_ids text) as [|app_id more] eqn:X.
    + destruct (fallback_intent_detection text); discriminate.
    + intros _. exists text, app_id, more. split; [reflexivity | exact X].
Qed.

Lemma awaiting_left_only_by_id_text_witness :
  exists text app_id more,
    TextMessage "eligibility" = TextMessage text /\ extract_app_ids text = app_id :: more.
Proof.
  apply (awaiting_left_only_by_id_text
           (init_bot Missing Missing) (DataFrame [example_record])
           (TextMessage "eligibility")
           {| user_data := {[waiting_key := true]}; outbox := [] |});
    vm_compute; reflexivity.
Defined.

(** X17: the awaiting state is entered only by the check-status button or
    by a text message that is classified status_check and yields no ID;
    when that text is ASCII it contains a status phrase. *)
Theorem awaiting_entered_only_by
        (self : SmartGovBot) (csv : CsvRead) (e : Event) (c : Conversation) :
  waiting_for_app_id c = false ->
  waiting_for_app_id (exec (handle_event self csv e) c) = true ->
  e = ButtonPress "option_3" \/
  exists text,
    e = TextMessage text /\
    fallback_intent_detection text = status_check /\
    extract_app_ids text = [] /\
    (ascii_text text = true ->
     PyStr.any_in status_phrases (message_lower text) = true).
Proof.
  intros W. rewrite DialogMore.waiting_step, W.
  destruct e as [| |data|text]; simpl; try discriminate.
  - rewrite orb_false_r. intros H. apply String.eqb_eq in H. left. congruence.
  - destruct (extract_app_ids text) as [|app_id more] eqn:X; [|discriminate].
    destruct (fallback_intent_detection text) eqn:I; try discriminate.
    intros _. right. exists text. repeat split; try assumption.
    intros _. apply ClassifierFacts.status_phrase_without_id; assumption.
Qed.

Lemma awaiting_entered_only_by_witness :
  TextMessage "track" = ButtonPress "option_3" \/
  exists text,
    TextMessage "track" = TextMessage text /\
    fallback_intent_detection text = status_check /\
    extract_app_ids text = [] /\
    (ascii_text text = true ->
     PyStr.any_in status_phrases (message_lower text) = true).
Proof.
  apply (awaiting_entered_only_by
           (init_bot Missing Missing) (DataFrame [example_record])
           (TextMessage "track") idle);
    vm_compute; reflexivity.
Defined.

(** X18: whatever events a conversation goes through from its start,
    user_data holds nothing but the awaiting flag, set to True, or is
    empty. *)
Theorem user_data_only_holds_flag
        (self : SmartGovBot) (csv : CsvRead) (events : list Event) :
  user_data (run self csv events idle) = ∅ \/
  user_data (run self csv events idle) = {[waiting_key := true]}.
Proof.
  assert (G : forall c,
             user_data c = ∅ \/ user_data c = {[waiting_key := true]} ->
             user_data (run self csv events c) = ∅ \/
             user_data (run self csv events c) = {[waiting_key := true]}).
  { induction events as [|e events IH]; intros c Hc; [exact Hc|].
    simpl. apply IH.
    destruct (DialogMore.user_data_step self csv e c) as [E|[E|E]]; rewrite E.
    - exact Hc.
    - right. destruct Hc as [-> | ->];
        [apply insert_empty | apply insert_singleton_eq].
    - left. destruct Hc as [-> | ->];
        [apply delete_empty | apply delete_singleton_eq]. }
  apply G. left. reflexivity.
Qed.


(** X20: while the conversation awaits an ID, a text from which an ID can
    be extracted is answered by the status check of the first ID, whatever
    the intent of the text, and the flag is removed. *)
Theorem awaiting_id_text_is_looked_up
        (self : SmartGovBot) (csv : CsvRead) (m app_id : string) (more : list string)
        (c : Conversation) :
  waiting_for_app_id c = true ->
  extract_app_ids m = app_id :: more ->
  message_handler self csv (text_update m) c =
  (Ok tt, {| user_data := delete waiting_key (user_data c);
             outbox := outbox c ++ [reply_text (status_view csv app_id)] |}).
Proof.
  intros W X. rewrite DialogFacts.message_handler_text, W, X.
  apply LookupFacts.check_application_status_run.
Qed.

Lemma awaiting_id_text_is_looked_up_witness :
  message_handler (init_bot Missing Missing) (DataFrame [example_record])
                  (text_update "eligibility")
                  {| user_data := {[waiting_key := true]}; outbox := [] |} =
  (Ok tt, {| user_data := delete waiting_key {[waiting_key := true]};
             outbox := [reply_text (StatusNotFoundView "ELIGIBILITY")] |}).
Proof.
  pose proof (awaiting_id_text_is_looked_up
                (init_bot Missing Missing) (DataFrame [example_record])
                "eligibility" "ELIGIBILITY" []
                {| user_data := {[waiting_key := true]}; outbox := [] |}) as H.
  simpl in H. apply H; vm_compute; reflexivity.
Defined.

(** X21: outside the awaiting state, a text with a procedure phrase and no
    greeting or norms phrase is answered with the procedure view, also when
    it holds a status phrase and an ID: no status check is made.  The help
    text's own example "Check status of application 23LDM786" is such a
    text. *)
Theorem procedure_phrase_hides_id
        (self : SmartGovBot) (csv : CsvRead) (m : string) (c : Conversation) :
  waiting_for_app_id c = false ->
  PyStr.any_in greeting_words (message_lower m) = false ->
  PyStr.any_in norms_phrases (message_lower m) = false ->
  PyStr.any_in procedure_phrases (message_lower m) = true ->
  message_handler self csv (text_update m) c =
  (Ok tt, {| user_data := user_data c;
             outbox := outbox c ++
                       [reply_text (ProcedureView (application_procedure_text self))] |}).
Proof.
  intros W G N P. rewrite DialogFacts.message_handler_text, W.
  rewrite DialogMore.handle_intent_text.
  unfold get_intent_from_llm, fallback_intent_detection. fold (message_lower m).
  rewrite G, N, P. reflexivity.
Qed.

Lemma procedure_phrase_hides_id_witness :
  extract_app_ids "Check status of application 23LDM786" =
    ["STATUS"; "APPLICATION"; "23LDM786"] /\
  message_handler (init_bot Missing Missing) (DataFrame [example_record])
                  (text_update "Check status of application 23LDM786") idle =
  (Ok tt, {| user_data := ∅;
             outbox := [reply_text (ProcedureView not_available_text)] |}).
Proof.
  split; [vm_compute; reflexivity|].
  apply (procedure_phrase_hides_id
           (init_bot Missing Missing) (DataFrame [example_record])
           "Check status of application 23LDM786" idle);
    vm_compute; reflexivity.
Defined.

(** X22: the status check uses the first ID-shaped word, also when that
    word is a status phrase such as "status": an ASCII text that starts
    with a word of 6 to 12 letters and digits, followed by a separator and
    anything else, and that is classified status_check outside the awaiting
    state, is answered by the status check of that first word in upper
    case, whatever IDs follow it. *)
Theorem status_word_is_looked_up
        (self : SmartGovBot) (csv : CsvRead) (w rest : string) (sep : ascii)
        (c : Conversation) :
  ascii_text (w ++ String sep rest) = true ->
  id_like (list_ascii_of_string w) = true ->
  PyStr.is_word sep = false ->
  waiting_for_app_id c = false ->
  fallback_intent_detection (w ++ String sep rest) = status_check ->
  extract_app_ids (w ++ String sep rest) = str_upper w :: extract_app_ids rest /\
  message_handler self csv (text_update (w ++ String sep rest)) c =
  (Ok tt, {| user_data := delete waiting_key (user_data c);
             outbox := outbox c ++ [reply_text (status_view csv (str_upper w))] |}).
Proof.
  intros _ Hw Hsep W I.
  assert (X : extract_app_ids (w ++ String sep rest) = str_upper w :: extract_app_ids rest).
  { rewrite ExtractorFacts.extract_app_sep by exact Hsep.
    rewrite (ExtractorFacts.extract_id_like_alone w Hw). reflexivity. }
  split; [exact X|].
  rewrite DialogFacts.message_handler_text, W, DialogMore.handle_intent_text.
  unfold get_intent_from_llm. rewrite I, X. reflexivity.
Qed.

Lemma status_word_is_looked_up_witness :
  extract_app_ids "status 23LDM786" = ["STATUS"; "23LDM786"] /\
  message_handler (init_bot Missing Missing) (DataFrame [example_record])
                  (text_update "status 23LDM786") idle =
  (Ok tt, {| user_data := delete waiting_key ∅;
             outbox := [reply_text (StatusNotFoundView "STATUS")] |}).
Proof.
  pose proof (status_word_is_looked_up
                (init_bot Missing Missing) (DataFrame [example_record])
                "status" "23LDM786" " " idle) as H.
  simpl in H. apply H; vm_compute; reflexivity.
Defined.
